(** * RollingPricePredictor: the regression-based price predictor of the
      BidSuggestions component (frontend/src/pages/Portfolio.tsx)

    The component keeps two pieces of React state, [priceHistory] (a rolling
    window of at most 50 price entries) and [regressionModel] (the last fitted
    model, or null).  This file embeds the functions that read and write them:

    - [computeLinearRegression]       (source lines 31-63)
    - [computePolynomialRegression]   (source lines 66-131)
    - [appendOnPriceChange], the updater of the first price effect (244-265)
    - [record], the updater of the second price effect (269-315)
    - [predictPriceWithRegression]    (349-408)
    - [calculateMovingAverage]        (134-142)
    - [marketConditions]              (410-421)
    - [predictPriceMovement]          (424-478)
    - [finalSuggestions], the last steps of [generateSuggestions] (742-750)
    - [filterSuggestions], the updater of the suggestion-type effect (760-766)
    - [appendPoint], the updater of the simulated and manual points
      (330-341, 1203)

    Modelling conventions.

    - A JavaScript number is an exact rational ([Q]): arithmetic does not
      round, overflow or produce NaN.  Comparisons, [Math.max], [Math.min] and
      [Math.abs] are the ones of [Q].
    - A property that may be missing ([undefined]) is an [option].
    - [Date.now()], [new Date().getHours()] and the successive results of
      [Math.random()] are inputs of the function that reads them.
    - [Math.sqrt] has no exact counterpart on [Q]; the predictor is
      parameterised by it (section variable [Math_sqrt]).  [Qsqrt] is a
      concrete approximation used to run examples.
    - Where the rounding of doubles decides a property, two further models
      of the same code are used: [confidenceRounded] applies a rounding
      function [fl] after every arithmetic operation of the confidence
      computation, and module [Double] runs the regression and the
      confidence computation on binary64 numbers. *)

From Stdlib Require Import QArith Qabs Qminmax ZArith List Bool Lia Lqa.
From Stdlib Require String PrimFloat.
From Stdlib Require Import Sorted Permutation.
Import ListNotations.
Open Scope Q_scope.

(** ** JavaScript helpers *)

(** [a < b] on numbers, as a boolean. *)
Definition Qltb (a b : Q) : bool :=
  match a ?= b with Lt => true | _ => false end.

(** [a > b] on numbers, as a boolean. *)
Definition Qgtb (a b : Q) : bool := Qltb b a.

(** Truthiness of a number: every number but 0 is truthy. *)
Definition truthy (x : Q) : bool := negb (Qeq_bool x 0).

(** [x || d] where [x] is a possibly missing number. *)
Definition orDefault (x : option Q) (d : Q) : Q :=
  match x with
  | Some v => if truthy v then v else d
  | None => d
  end.

(** [arr.reduce((sum, v) => sum + v, 0)] *)
Definition sum (l : list Q) : Q := fold_left Qplus l 0.

(** [arr.slice(-n)]: the last [n] elements. *)
Definition slice_last {A : Type} (n : nat) (l : list A) : list A :=
  skipn (length l - n) l.

(** [arr[arr.length - 1]], undefined on the empty array. *)
Definition lastEntry {A : Type} (l : list A) : option A :=
  nth_error l (length l - 1).

(** [arr[i]] on an array of numbers; the arrays read below are always long
    enough, a read out of range gives 0 here. *)
Definition at1 (l : list Q) (i : nat) : Q := nth i l 0.

(** [m[i][j]] *)
Definition at2 (m : list (list Q)) (i j : nat) : Q := at1 (nth i m []) j.

(** The length of an array as a number. *)
Definition len {A : Type} (l : list A) : Q := inject_Z (Z.of_nat (length l)).

(** A square root on rationals, rounded down to a multiple of [1 / (d * 2^32)]
    where [d] is the denominator: an executable stand-in for [Math.sqrt]. *)
Definition Qsqrt (q : Q) : Q :=
  let d := Zpos (Qden q) in
  Qmake (Z.sqrt (Qnum q * d * 2 ^ 64)) (Qden q * 2 ^ 32).

(** ** Data model *)

(** The [marketData] prop; [None] fields are missing properties. *)
Record MarketData := {
  currentPrice : option Q;
  md_demand : option Q;
  md_renewablePercentage : option Q
}.

(** One element of [priceHistory].  The first price effect stores only
    [timestamp] and [price]. *)
Record PriceEntry := {
  price : Q;
  timestamp : Z;
  hour : option Z;
  demand : option Q;
  renewablePercentage : option Q
}.

(** The objects returned by the two regression functions.  [slope] and
    [intercept] exist on a linear result only, [coefficients] on a polynomial
    result only; [rSquared] exists on both. *)
Inductive FitResult :=
| LinearResult (slope_ intercept_ rSquared_ : Q)
| PolyResult (coefficients_ : list Q) (rSquared_ : Q).

(** Property reads.  A read of a missing property gives 0 (an empty array
    for [coefficients]); [reachable_invariant] below shows that no model of a
    reachable state is read that way. *)
Definition slope (r : FitResult) : Q :=
  match r with LinearResult s _ _ => s | PolyResult _ _ => 0 end.
Definition intercept (r : FitResult) : Q :=
  match r with LinearResult _ i _ => i | PolyResult _ _ => 0 end.
Definition coefficients (r : FitResult) : list Q :=
  match r with LinearResult _ _ _ => [] | PolyResult c _ => c end.
Definition rSquared (r : FitResult) : Q :=
  match r with LinearResult _ _ r2 => r2 | PolyResult _ r2 => r2 end.

Inductive ModelType := linear | polynomial.

Inductive Trend := upward | downward | stable | complex.

(** The [regressionModel] state: [{ type, ...selectedModel, lastUpdate,
    dataPoints, trend }]. *)
Record RegressionModel := {
  type : ModelType;
  fields : FitResult;
  lastUpdate : Z;
  dataPoints : nat;
  trend : Trend
}.

Record State := {
  priceHistory : list PriceEntry;
  regressionModel : option RegressionModel
}.

(** [useState([])] and [useState(null)]. *)
Definition initialState : State :=
  {| priceHistory := []; regressionModel := None |}.

Inductive Method := fallback | ofModel (t : ModelType).

(** The object returned by [predictPriceWithRegression]; the fallback object
    has only the first three properties. *)
Record Prediction := {
  predictedPrice : Q;
  confidence : Q;
  method : Method;
  p_rSquared : option Q;
  p_trend : option Trend;
  volatility : option Q
}.

(** ** Regression *)

(** [computeLinearRegression(xData, yData)] *)
Definition computeLinearRegression (xData yData : list Q) : FitResult :=
  let n := length xData in
  if (n <? 2)%nat then LinearResult 0 0 0 else
  let xMean := sum xData / len xData in
  let yMean := sum yData / len xData in
  let idx := seq 0 n in
  let numerator :=
    fold_left (fun acc i => acc + (at1 xData i - xMean) * (at1 yData i - yMean)) idx 0 in
  let denominator :=
    fold_left (fun acc i => acc + (at1 xData i - xMean) ^ 2) idx 0 in
  let ssTotal :=
    fold_left (fun acc i => acc + (at1 yData i - yMean) ^ 2) idx 0 in
  let slope := if negb (Qeq_bool denominator 0) then numerator / denominator else 0 in
  let intercept := yMean - slope * xMean in
  let ssRes :=
    fold_left (fun acc i =>
                 let predicted := slope * at1 xData i + intercept in
                 acc + (at1 yData i - predicted) ^ 2) idx 0 in
  let rSquared := if negb (Qeq_bool ssTotal 0) then 1 - ssRes / ssTotal else 0 in
  LinearResult slope intercept (Qmax 0 rSquared).

(** The Vandermonde matrix: row [i] is [[x_i^0; x_i^1; x_i^2]]. *)
Definition vandermonde (xData : list Q) (degree : nat) : list (list Q) :=
  map (fun x => map (fun j => x ^ Z.of_nat j) (seq 0 (S degree))) xData.

(** [X[0].map((_, colIndex) => X.map(row => row[colIndex]))] *)
Definition transpose (X : list (list Q)) : list (list Q) :=
  map (fun colIndex => map (fun row => at1 row colIndex) X)
      (seq 0 (length (nth 0 X []))).

(** [row1.reduce((sum, val, i) => sum + val * row2[i], 0)] *)
Definition dot (row1 row2 : list Q) : Q :=
  fold_left (fun acc i => acc + at1 row1 i * at1 row2 i) (seq 0 (length row1)) 0.

(** The determinant of the 3x3 matrix [XTX], expanded along its first row. *)
Definition det3 (XTX : list (list Q)) : Q :=
  at2 XTX 0 0 * (at2 XTX 1 1 * at2 XTX 2 2 - at2 XTX 1 2 * at2 XTX 2 1) -
  at2 XTX 0 1 * (at2 XTX 1 0 * at2 XTX 2 2 - at2 XTX 1 2 * at2 XTX 2 0) +
  at2 XTX 0 2 * (at2 XTX 1 0 * at2 XTX 2 1 - at2 XTX 1 1 * at2 XTX 2 0).

(** [X'X] for the degree-2 design matrix of [xData]. *)
Definition normalMatrix (xData : list Q) : list (list Q) :=
  let XT := transpose (vandermonde xData 2) in
  map (fun row1 => map (fun row2 => dot row1 row2) XT) XT.

(** [X'y] *)
Definition normalVector (xData yData : list Q) : list Q :=
  let XT := transpose (vandermonde xData 2) in
  map (fun row => dot row yData) XT.

(** The three quotients of the Cramer-style solve. *)
Definition cramer (XTX : list (list Q)) (XTy : list Q) (det : Q) : list Q :=
  [ (at1 XTy 0 * (at2 XTX 1 1 * at2 XTX 2 2 - at2 XTX 1 2 * at2 XTX 2 1) -
     at2 XTX 0 1 * (at1 XTy 1 * at2 XTX 2 2 - at1 XTy 2 * at2 XTX 1 2) +
     at2 XTX 0 2 * (at1 XTy 1 * at2 XTX 2 1 - at1 XTy 2 * at2 XTX 1 1)) / det;
    (at2 XTX 0 0 * (at1 XTy 1 * at2 XTX 2 2 - at1 XTy 2 * at2 XTX 1 2) -
     at1 XTy 0 * (at2 XTX 1 0 * at2 XTX 2 2 - at2 XTX 1 2 * at2 XTX 2 0) +
     at2 XTX 0 2 * (at2 XTX 1 0 * at1 XTy 2 - at1 XTy 1 * at2 XTX 2 0)) / det;
    (at2 XTX 0 0 * (at2 XTX 1 1 * at1 XTy 2 - at1 XTy 1 * at2 XTX 2 1) -
     at2 XTX 0 1 * (at2 XTX 1 0 * at1 XTy 2 - at1 XTy 1 * at2 XTX 2 0) +
     at1 XTy 0 * (at2 XTX 1 0 * at2 XTX 2 1 - at2 XTX 1 1 * at2 XTX 2 0)) / det ].

(** [computePolynomialRegression(xData, yData, 2)].  Nothing in the [try]
    block can throw on arrays of numbers, so the [catch] branch is not
    modelled. *)
Definition computePolynomialRegression (xData yData : list Q) : FitResult :=
  let n := length xData in
  if (n <? 2 + 1)%nat then PolyResult [0; 0; 0] 0 else
  let XTX := normalMatrix xData in
  let XTy := normalVector xData yData in
  let det := det3 XTX in
  if Qltb (Qabs det) 1e-10 then
    let linear := computeLinearRegression xData yData in
    PolyResult [intercept linear; slope linear; 0] (rSquared linear)
  else
  let coefficients := cramer XTX XTy det in
  let yMean := sum yData / len xData in
  let idx := seq 0 n in
  let predictedAt i :=
    at1 coefficients 0 + at1 coefficients 1 * at1 xData i +
    at1 coefficients 2 * at1 xData i * at1 xData i in
  let ssTotal := fold_left (fun acc i => acc + (at1 yData i - yMean) ^ 2) idx 0 in
  let ssRes := fold_left (fun acc i => acc + (at1 yData i - predictedAt i) ^ 2) idx 0 in
  let rSquared := if negb (Qeq_bool ssTotal 0) then Qmax 0 (1 - ssRes / ssTotal) else 0 in
  PolyResult coefficients rSquared.

(** ** Fitting a window *)

(** [selectedModel.slope > 0.01 ? 'upward' : selectedModel.slope < -0.01 ?
    'downward' : 'stable'] *)
Definition slopeTrend (s : Q) : Trend :=
  if Qgtb s 0.01 then upward else if Qltb s (-0.01) then downward else stable.

(** [newHistory.map((_, i) => i)] *)
Definition timeIndex (newHistory : list PriceEntry) : list Q :=
  map (fun i => inject_Z (Z.of_nat i)) (seq 0 (length newHistory)).

(** [newHistory.map(d => d.price)] *)
Definition prices (newHistory : list PriceEntry) : list Q :=
  map price newHistory.

(** The model fitted to [newHistory] (lines 289-308; the same code fits the
    synthetic bootstrap data at lines 218-235). *)
Definition fitModel (newHistory : list PriceEntry) (now : Z) : RegressionModel :=
  let xData := timeIndex newHistory in
  let yData := prices newHistory in
  let linearModel := computeLinearRegression xData yData in
  let polyModel :=
    if (5 <=? length newHistory)%nat
    then computePolynomialRegression xData yData
    else linearModel in
  let '(selectedType, selectedFields) :=
    if Qgtb (rSquared polyModel) (rSquared linearModel + 0.1)
    then (polynomial, polyModel)
    else (linear, linearModel) in
  {| type := selectedType;
     fields := selectedFields;
     lastUpdate := now;
     dataPoints := length newHistory;
     trend := match selectedType with
              | linear => slopeTrend (slope selectedFields)
              | polynomial => complex
              end |}.

(** ** Recording prices *)

(** [marketData?.currentPrice] *)
Definition currentPriceOf (marketData : option MarketData) : option Q :=
  match marketData with
  | Some md => currentPrice md
  | None => None
  end.

(** The guard of both price effects:
    [marketData?.currentPrice && marketData.currentPrice > 0]; it gives the
    price when it holds. *)
Definition validPrice (marketData : option MarketData) : option Q :=
  match currentPriceOf marketData with
  | Some p => if truthy p && Qgtb p 0 then Some p else None
  | None => None
  end.

(** The updater of the first price effect (lines 244-265): a price within
    0.01 of the last one is skipped whatever its age. *)
Definition appendOnPriceChange (marketData : option MarketData) (now : Z)
    (st : State) : State :=
  match validPrice marketData with
  | None => st
  | Some p =>
    let prev := priceHistory st in
    let newEntry :=
      {| price := p; timestamp := now; hour := None; demand := None;
         renewablePercentage := None |} in
    let skip :=
      match lastEntry prev with
      | Some e => Qltb (Qabs (price e - price newEntry)) 0.01
      | None => false
      end in
    if skip then st else
    let updated := prev ++ [newEntry] in
    {| priceHistory :=
         if (50 <? length updated)%nat then slice_last 50 updated else updated;
       regressionModel := regressionModel st |}
  end.

(** The duplicate check of the second price effect (lines 273-277). *)
Definition isDuplicate (prev : list PriceEntry) (p : Q) (now : Z) : bool :=
  match lastEntry prev with
  | Some e => Qltb (Qabs (price e - p)) 0.01 && (now - timestamp e <? 30000)%Z
  | None => false
  end.

(** The entry appended by the second price effect (lines 279-285). *)
Definition newEntry (marketData : option MarketData) (p : Q) (now nowHours : Z)
    : PriceEntry :=
  {| price := p;
     timestamp := now;
     hour := Some nowHours;
     demand := Some (orDefault (match marketData with
                                | Some md => md_demand md | None => None end) 0);
     renewablePercentage :=
       Some (orDefault (match marketData with
                        | Some md => md_renewablePercentage md
                        | None => None end) 0) |}.

(** [record]: the second price effect (lines 269-315).  [now] is
    [Date.now()] and [nowHours] is [new Date().getHours()]. *)
Definition record (marketData : option MarketData) (now nowHours : Z)
    (st : State) : State :=
  match validPrice marketData with
  | None => st
  | Some p =>
    let prev := priceHistory st in
    if isDuplicate prev p now then st else
    let newHistory :=
      slice_last 50 (prev ++ [newEntry marketData p now nowHours]) in
    {| priceHistory := newHistory;
       regressionModel :=
         if (3 <=? length newHistory)%nat
         then Some (fitModel newHistory now)
         else regressionModel st |}
  end.

(** One call of [record] with what it reads from its environment. *)
Record Sample := {
  s_marketData : option MarketData;
  s_now : Z;
  s_nowHours : Z
}.

Definition recordSample (st : State) (s : Sample) : State :=
  record (s_marketData s) (s_now s) (s_nowHours s) st.

Definition recordAll (samples : list Sample) (st : State) : State :=
  fold_left recordSample samples st.

(** A sample is accepted in a state when its price passes the guard and the
    duplicate check does not reject it. *)
Definition accepted (st : State) (s : Sample) : bool :=
  match validPrice (s_marketData s) with
  | Some p => negb (isDuplicate (priceHistory st) p (s_now s))
  | None => false
  end.

Fixpoint allAccepted (st : State) (samples : list Sample) : bool :=
  match samples with
  | [] => true
  | s :: rest => accepted st s && allAccepted (recordSample st s) rest
  end.

(** The entry that an accepted sample appends. *)
Definition entryOf (s : Sample) : PriceEntry :=
  newEntry (s_marketData s)
           (match validPrice (s_marketData s) with Some p => p | None => 0 end)
           (s_now s) (s_nowHours s).

(** ** Prediction *)

Section Predict.

(** [Math.sqrt] *)
Variable Math_sqrt : Q -> Q.

(** The sample standard deviation of the last ten prices (lines 387-392). *)
Definition volatilityOf (history : list PriceEntry) : Q :=
  let recentPrices := map price (slice_last 10 history) in
  if (1 <? length recentPrices)%nat then
    Math_sqrt
      (fold_left (fun acc p =>
                    let mean := sum recentPrices / len recentPrices in
                    acc + (p - mean) ^ 2) recentPrices 0
       / (len recentPrices - 1))
  else 0.

(** [(currentHour >= 8 && currentHour <= 12) ||
     (currentHour >= 18 && currentHour <= 22)] *)
Definition isPeakHour (currentHour : Z) : bool :=
  ((8 <=? currentHour) && (currentHour <=? 12) ||
   (18 <=? currentHour) && (currentHour <=? 22))%Z.

(** [currentHour >= 23 || currentHour <= 6] *)
Definition isNightHour (currentHour : Z) : bool :=
  ((23 <=? currentHour) || (currentHour <=? 6))%Z.

(** [predictPriceWithRegression(hoursAhead)].  [nowHours] is
    [new Date().getHours()]; [random i] is the result of the [i]-th call of
    [Math.random()] made by this call. *)
Definition predictPriceWithRegression (st : State)
    (marketData : option MarketData) (nowHours : Z) (random : nat -> Q)
    (hoursAhead : Z) : Prediction :=
  let fallbackPrediction :=
    {| predictedPrice := orDefault (currentPriceOf marketData) 45.0;
       confidence := 30;
       method := fallback;
       p_rSquared := None; p_trend := None; volatility := None |} in
  match regressionModel st with
  | None => fallbackPrediction
  | Some model =>
    if (length (priceHistory st) <? 3)%nat then fallbackPrediction else
    let currentIndex := len (priceHistory st) - 1 in
    let futureIndex := currentIndex + inject_Z hoursAhead in
    let confidence0 := Qmin 95 (rSquared (fields model) * 100) in
    let predictedPrice0 :=
      match type model with
      | linear =>
        slope (fields model) * futureIndex + intercept (fields model)
      | polynomial =>
        let coefficients := coefficients (fields model) in
        at1 coefficients 0 + at1 coefficients 1 * futureIndex +
        at1 coefficients 2 * futureIndex * futureIndex
      end in
    let currentHour := Z.rem (nowHours + hoursAhead) 24 in
    let '(predictedPrice1, confidence1, calls) :=
      if isPeakHour currentHour then
        (predictedPrice0 * (1.05 + random 0%nat * 0.05), confidence0 + 5, 1%nat)
      else if isNightHour currentHour then
        (predictedPrice0 * (0.92 - random 0%nat * 0.05), confidence0 + 3, 1%nat)
      else (predictedPrice0, confidence0, 0%nat) in
    let volatility := volatilityOf (priceHistory st) in
    let noiseAdjustment := (random calls - 0.5) * volatility * 0.3 in
    let predictedPrice2 := predictedPrice1 + noiseAdjustment in
    let confidence2 := Qmax 25 (confidence1 - inject_Z hoursAhead * 5) in
    {| predictedPrice := Qmax 10 predictedPrice2;
       confidence := confidence2;
       method := ofModel (type model);
       p_rSquared := Some (rSquared (fields model));
       p_trend := Some (trend model);
       volatility := Some volatility |}
  end.

End Predict.

(** ** Vocabulary of the properties *)

(** The object returned when there is no model or fewer than 3 entries. *)
Definition fallbackPrediction (marketData : option MarketData) : Prediction :=
  {| predictedPrice := orDefault (currentPriceOf marketData) 45.0;
     confidence := 30;
     method := fallback;
     p_rSquared := None; p_trend := None; volatility := None |}.

(** The confidence of a fitted prediction: the base [min(95, r2 * 100)], the
    time-of-day bonus, the decay of 5 per step and the floor of 25. *)
Definition confidenceAt (r2 : Q) (currentHour hoursAhead : Z) : Q :=
  let confidence0 := Qmin 95 (r2 * 100) in
  let confidence1 :=
    if isPeakHour currentHour then confidence0 + 5
    else if isNightHour currentHour then confidence0 + 3
    else confidence0 in
  Qmax 25 (confidence1 - inject_Z hoursAhead * 5).

(** The two paths of [predictPriceWithRegression]. *)
Inductive PredictPath (st : State) : Prop :=
| FallbackPath :
    regressionModel st = None \/ (length (priceHistory st) < 3)%nat ->
    PredictPath st
| FittedPath (model : RegressionModel) :
    regressionModel st = Some model ->
    (3 <= length (priceHistory st))%nat ->
    PredictPath st.

(** A model has the properties its [type] promises: [slope] and [intercept]
    on a linear one, three [coefficients] on a polynomial one. *)
Definition wellFormed (m : RegressionModel) : Prop :=
  match type m with
  | linear => exists s i r, fields m = LinearResult s i r
  | polynomial => exists c0 c1 c2 r, fields m = PolyResult [c0; c1; c2] r
  end.

(** The states that the two price effects build from the initial one. *)
Inductive Reachable : State -> Prop :=
| reach_initial : Reachable initialState
| reach_record (marketData : option MarketData) (now nowHours : Z) (st : State) :
    Reachable st -> Reachable (record marketData now nowHours st)
| reach_append (marketData : option MarketData) (now : Z) (st : State) :
    Reachable st -> Reachable (appendOnPriceChange marketData now st).

(** ** Sample data *)

(** [marketData] carrying the price [p] only. *)
Definition priceOnly (p : Q) : option MarketData :=
  Some {| currentPrice := Some p; md_demand := None;
          md_renewablePercentage := None |}.

(** A sample of price [p] read at time [t], in the afternoon. *)
Definition sampleAt (p : Q) (t : Z) : Sample :=
  {| s_marketData := priceOnly p; s_now := t; s_nowHours := 14 |}.

(** Prices 40, 41, 42, ... one minute apart. *)
Definition rampSamples (n : nat) : list Sample :=
  map (fun i => sampleAt (40 + inject_Z (Z.of_nat i)) (Z.of_nat i * 60000))
      (seq 0 n).

(** Scenario C: the price 45.0 recorded three times, 31 seconds apart. *)
Definition scenarioC : list Sample :=
  [sampleAt 45.0 0; sampleAt 45.0 31000; sampleAt 45.0 62000].

(** The window after 45.0 at time 0 and 50.0 ten seconds later. *)
Definition twoPrices : State :=
  recordAll [sampleAt 45.0 0; sampleAt 50.0 10000] initialState.

(** The windows that [record] builds from the given prices, one minute
    apart. *)
Definition windowOf (ps : list Q) : State :=
  recordAll (map (fun '(i, p) => sampleAt p (Z.of_nat i * 60000))
                 (combine (seq 0 (length ps)) ps))
            initialState.

(** A V-shaped window: the line through it is flat, the parabola fits it
    exactly. *)
Definition valley : State := windowOf [5; 2; 1; 2; 5].

(** A straight ramp of slope 2 (scenario B). *)
Definition ramp : State := windowOf [40; 42; 44; 46; 48].

(** Three equal prices: a flat line, no variance. *)
Definition flat : State := windowOf [40; 40; 40].

(** A steep fall of 20 per step. *)
Definition steep : State := windowOf [100; 80; 60; 40; 20].

(** Two sequences of results of [Math.random()], both within [0, 1). *)
Definition drawsLow (i : nat) : Q := 0.
Definition drawsHalf (i : nat) : Q := 0.5.

(** Draws that agree with [drawsHalf] on the first two calls only. *)
Definition drawsHalfThen (i : nat) : Q := if (i <? 2)%nat then 0.5 else 0.9.

(** ** The rest of the component *)

(** [calculateMovingAverage(data, window)] (lines 134-142).  The loop index
    [i] runs from [window - 1] to [data.length - 1]; [j] below is
    [i - window + 1], the start of [data.slice(i - window + 1, i + 1)]. *)
Definition calculateMovingAverage (data : list Q) (window : nat) : list Q :=
  if (length data <? window)%nat then data else
  map (fun j => sum (firstn window (skipn j data)) / inject_Z (Z.of_nat window))
      (seq 0 (S (length data) - window)).

Inductive GridStress := stressHigh | stressLow | stressNormal.

(** The [marketConditions] object (lines 410-421). *)
Record MarketConditions := {
  mc_volatility : Q;
  renewableRatio : Q;
  gridStress : GridStress;
  liquidity : Q;
  regressionFit : Q;
  trendDirection : Trend
}.

(** [method] of the object returned by [predictPriceMovement]:
    [`ML-${method}`] or ['heuristic']. *)
Inductive MovementMethod := ML (m : Method) | heuristic.

(** The object returned by [predictPriceMovement]. *)
Record Movement := {
  mv_predictedPrice : Q;
  mv_confidence : Q;
  mv_method : MovementMethod;
  modelQuality : option Q;
  mv_trend : option Trend;
  mv_volatility : option Q
}.

Section Movement.

(** [Math.sqrt] *)
Variable Math_sqrt : Q -> Q.

(** [marketConditions]; [draw] is the result of its call of
    [Math.random()]. *)
Definition marketConditions (st : State) (marketData : option MarketData)
    (draw : Q) : MarketConditions :=
  let recent := slice_last 10 (priceHistory st) in
  {| mc_volatility :=
       if (5 <? length (priceHistory st))%nat then
         Math_sqrt
           (fold_left (fun acc h =>
                         let mean :=
                           fold_left (fun a b => a + price b) recent 0
                           / len recent in
                         acc + (price h - mean) ^ 2) recent 0
            / Qmax 1 (len recent - 1))
       else 5.0;
     renewableRatio :=
       orDefault (match marketData with
                  | Some md => md_renewablePercentage md
                  | None => None
                  end) 35 / 100;
     gridStress :=
       match (match marketData with Some md => md_demand md | None => None end) with
       | Some d =>
         if Qgtb d 35000 then stressHigh
         else if Qltb d 30000 then stressLow else stressNormal
       | None => stressNormal
       end;
     liquidity := 0.7 + draw * 0.3;
     regressionFit :=
       orDefault (option_map (fun m => rSquared (fields m)) (regressionModel st)) 0;
     trendDirection :=
       match regressionModel st with
       | Some m => trend m
       | None => stable
       end |}.

(** [(hour - new Date().getHours() + 24) % 24] *)
Definition hoursAheadOf (hour nowHours : Z) : Z :=
  Z.rem (hour - nowHours + 24) 24.

(** [predictPriceMovement(hour, basePrice)] (lines 424-478).  [random i] is
    the result of the [i]-th call of [Math.random()] made by this call,
    whichever function makes it. *)
Definition predictPriceMovement (st : State) (marketData : option MarketData)
    (conditions : MarketConditions) (nowHours : Z) (random : nat -> Q)
    (hour : Z) (basePrice : Q) : Movement :=
  let hoursAhead := hoursAheadOf hour nowHours in
  let useRegression :=
    match regressionModel st with
    | Some _ => (3 <=? length (priceHistory st))%nat
    | None => false
    end in
  if useRegression then
    let regressionPrediction :=
      predictPriceWithRegression Math_sqrt st marketData nowHours random
        (if (hoursAhead =? 0)%Z then 1%Z else hoursAhead) in
    {| mv_predictedPrice := predictedPrice regressionPrediction;
       mv_confidence := confidence regressionPrediction;
       mv_method := ML (method regressionPrediction);
       modelQuality := p_rSquared regressionPrediction;
       mv_trend := p_trend regressionPrediction;
       mv_volatility := volatility regressionPrediction |}
  else
    let '(priceMultiplier0, confidence0) :=
      if isPeakHour hour then
        (1.15 + random 0%nat * 0.1, 60 + random 1%nat * 15)
      else if isNightHour hour then
        (0.85 - random 0%nat * 0.1, 55 + random 1%nat * 20)
      else (0.95 + random 0%nat * 0.1, 45 + random 1%nat * 20) in
    let '(priceMultiplier1, confidence1) :=
      if Qgtb (renewableRatio conditions) 0.5
      then (priceMultiplier0 * 0.95, confidence0 + 5)
      else (priceMultiplier0, confidence0) in
    let '(priceMultiplier, confidence2) :=
      match gridStress conditions with
      | stressHigh => (priceMultiplier1 * 1.1, confidence1 + 10)
      | _ => (priceMultiplier1, confidence1)
      end in
    {| mv_predictedPrice := basePrice * priceMultiplier;
       mv_confidence := confidence2;
       mv_method := heuristic;
       modelQuality := Some 0;
       mv_trend :=
         Some (if Qgtb priceMultiplier 1.05 then upward
               else if Qltb priceMultiplier 0.95 then downward else stable);
       mv_volatility := Some (mc_volatility conditions) |}.

End Movement.

(** *** Suggestions *)

Inductive Action := buy | sell.

Inductive AnalysisMode := conservative | moderate | aggressive.

Inductive Priority := priorityHigh | priorityMedium | priorityLow.

(** The [suggestionType] state: ['buy'], ['sell'], or anything else
    (['both']). *)
Inductive SuggestionType := typeBuy | typeSell | typeBoth.

Record ModelInfo := {
  mi_method : MovementMethod;
  mi_trend : option Trend;
  mi_modelQuality : option Q;
  mi_volatility : option String.string
}.

Record Suggestion := {
  id : String.string;
  sg_hour : Z;
  action : Action;
  analysisMode : AnalysisMode;
  priceTarget : Q;
  volume : Q;
  sg_confidence : Q;
  reasoning : String.string;
  priority : Priority;
  modelInfo : ModelInfo
}.

(** [a] may stand before [b] in a list sorted by decreasing confidence. *)
Definition notBelow (a b : Suggestion) : Prop :=
  sg_confidence b <= sg_confidence a.

(** [s.analysisMode === mode] *)
Definition sameMode (mode : AnalysisMode) (s : Suggestion) : bool :=
  match analysisMode s, mode with
  | conservative, conservative => true
  | moderate, moderate => true
  | aggressive, aggressive => true
  | _, _ => false
  end.

(** The filter predicate of lines 761-765 (and 744-748). *)
Definition matchesType (suggestionType : SuggestionType)
    (suggestion : Suggestion) : bool :=
  match suggestionType with
  | typeBuy => match action suggestion with buy => true | sell => false end
  | typeSell => match action suggestion with sell => true | buy => false end
  | typeBoth => true
  end.

(** Insertion of [x] into a list sorted by decreasing confidence, before the
    first element that does not have to come before it. *)
Fixpoint insertByConfidence (x : Suggestion) (l : list Suggestion)
    : list Suggestion :=
  match l with
  | [] => [x]
  | y :: rest =>
    if Qgtb (sg_confidence y) (sg_confidence x)
    then y :: insertByConfidence x rest
    else x :: l
  end.

(** [arr.sort((a, b) => b.confidence - a.confidence)]: the sort of an array
    is stable, so its result is the one of this insertion sort. *)
Definition sortByConfidence (l : list Suggestion) : list Suggestion :=
  fold_right insertByConfidence [] l.

(** The updater of the suggestion-type effect (lines 760-766). *)
Definition filterSuggestions (suggestionType : SuggestionType)
    (prevSuggestions : list Suggestion) : list Suggestion :=
  sortByConfidence (filter (matchesType suggestionType) prevSuggestions).

(** The last two steps of [generateSuggestions] (lines 742-750). *)
Definition finalSuggestions (mode : AnalysisMode)
    (suggestionType : SuggestionType) (allSuggestions : list Suggestion)
    : list Suggestion :=
  let currentModesSuggestions := filter (sameMode mode) allSuggestions in
  sortByConfidence (filter (matchesType suggestionType) currentModesSuggestions).

(** [[...prev, newDataPoint].slice(-50)]: the updater of the simulated price
    movement (lines 330-341) and of the manual data point (line 1203). *)
Definition appendPoint (newDataPoint : PriceEntry) (st : State) : State :=
  {| priceHistory := slice_last 50 (priceHistory st ++ [newDataPoint]);
     regressionModel := regressionModel st |}.

(** The states built from the initial one by [record] alone. *)
Inductive Recorded : State -> Prop :=
| recorded_initial : Recorded initialState
| recorded_step (marketData : option MarketData) (now nowHours : Z) (st : State) :
    Recorded st -> Recorded (record marketData now nowHours st).

(** No two neighbours of the window are less than 30 seconds apart with
    prices less than 0.01 apart. *)
Fixpoint noAdjacentDuplicates (l : list PriceEntry) : Prop :=
  match l with
  | [] => True
  | e :: rest =>
    match rest with
    | [] => True
    | e' :: _ =>
      ~ (Qabs (price e - price e') < 0.01 /\
         (timestamp e' - timestamp e < 30000)%Z)
    end /\ noAdjacentDuplicates rest
  end.

(** The prices [a * i + b] at the window positions [i = 0 .. n-1]. *)
Definition onLine (a b : Q) (history : list PriceEntry) : Prop :=
  forall i, (i < length history)%nat ->
            at1 (prices history) i == a * inject_Z (Z.of_nat i) + b.

(** A window of [n] entries on the line [a * i + b]. *)
Definition lineWindow (a b : Q) (n : nat) : list PriceEntry :=
  map (fun i => {| price := a * inject_Z (Z.of_nat i) + b;
                   timestamp := Z.of_nat i * 60000;
                   hour := None; demand := None;
                   renewablePercentage := None |})
      (seq 0 n).

(** The determinant test of the polynomial fit passes on the indices of
    every window of 3 to 50 entries. *)
Definition nondegenerateUpTo50 : bool :=
  forallb (fun n =>
             negb (Qltb (Qabs (det3 (normalMatrix
                                       (map (fun i => inject_Z (Z.of_nat i))
                                            (seq 0 n)))))
                        1e-10))
          (seq 3 48).

(** ** Rounding *)

Section Rounded.

(** The rounding of the exact result of an operation to a double. *)
Variable fl : Q -> Q.

(** The confidence of a fitted prediction (lines 363, 378-384, 398) with
    every arithmetic result rounded. *)
Definition confidenceRounded (r2 : Q) (currentHour hoursAhead : Z) : Q :=
  let confidence0 := Qmin 95 (fl (r2 * 100)) in
  let confidence1 :=
    if isPeakHour currentHour then fl (confidence0 + 5)
    else if isNightHour currentHour then fl (confidence0 + 3)
    else confidence0 in
  Qmax 25 (fl (confidence1 - fl (inject_Z hoursAhead * 5))).

(** The [confidence] of [predictPriceWithRegression(hoursAhead)], rounded. *)
Definition predictConfidence (st : State) (nowHours hoursAhead : Z) : Q :=
  match regressionModel st with
  | None => 30
  | Some model =>
    if (length (priceHistory st) <? 3)%nat then 30 else
    confidenceRounded (rSquared (fields model))
                      (Z.rem (nowHours + hoursAhead) 24) hoursAhead
  end.

End Rounded.

(** What the properties below use of the rounding to doubles: it depends on
    the value only, it is monotone, it is off by at most 1 on [0, 100] (a
    double is off by less than 2^-46 there), and it is exact on the integers
    up to 2^53. *)
Record IsRounding (fl : Q -> Q) : Prop := {
  fl_wd : forall x y, x == y -> fl x == fl y;
  fl_mono : forall x y, x <= y -> fl x <= fl y;
  fl_near : forall x, 0 <= x <= 100 -> Qabs (fl x - x) <= 1;
  fl_int : forall z, (Z.abs z <= 2 ^ 53)%Z -> fl (inject_Z z) == inject_Z z
}.

(** Exact arithmetic: no rounding. *)
Definition exact (x : Q) : Q := x.

(** A step ahead that moves the target hour from an hour without bonus into
    a peak hour (from 7 to 8, or from 17 to 18 o'clock). *)
Definition entersPeak (nowHours hoursAhead : Z) : bool :=
  negb (isPeakHour (Z.rem (nowHours + hoursAhead) 24))
  && negb (isNightHour (Z.rem (nowHours + hoursAhead) 24))
  && isPeakHour (Z.rem (nowHours + (hoursAhead + 1)) 24).

(** ** The regression and the confidence on doubles *)

Module Double.

Import PrimFloat.
Local Open Scope float_scope.
#[local] Set Warnings "-inexact-float".

(** An integer as a double, digit by digit; every step is exact below
    2^53. *)
Fixpoint of_positive (p : positive) : float :=
  match p with
  | xH => 1
  | xO q => 2 * of_positive q
  | xI q => 2 * of_positive q + 1
  end.

Definition of_Z (z : Z) : float :=
  match z with
  | Z0 => 0
  | Zpos p => of_positive p
  | Zneg p => - of_positive p
  end.

(** [Math.max(a, b)] and [Math.min(a, b)] *)
Definition Math_max (a b : float) : float :=
  if is_nan a || is_nan b then nan else if a <? b then b else a.
Definition Math_min (a b : float) : float :=
  if is_nan a || is_nan b then nan else if b <? a then b else a.

(** [arr.reduce((sum, v) => sum + v, 0)] *)
Definition sum (l : list float) : float := fold_left add l 0.

(** [arr[i]]; a read out of range takes part in arithmetic as NaN. *)
Definition at1 (l : list float) (i : nat) : float := nth i l nan.
Definition at2 (m : list (list float)) (i j : nat) : float :=
  at1 (nth i m []) j.

Definition len {A : Type} (l : list A) : float := of_Z (Z.of_nat (length l)).

Record LinearFit := { slope : float; intercept : float; rSquared : float }.

Record PolyFit := { coefficients : list float; polyRSquared : float }.

(** [computeLinearRegression(xData, yData)]; [v ** 2] is [v * v]. *)
Definition computeLinearRegression (xData yData : list float) : LinearFit :=
  let n := length xData in
  if (n <? 2)%nat then {| slope := 0; intercept := 0; rSquared := 0 |} else
  let xMean := sum xData / len xData in
  let yMean := sum yData / len xData in
  let idx := seq 0 n in
  let numerator :=
    fold_left (fun acc i => acc + (at1 xData i - xMean) * (at1 yData i - yMean)) idx 0 in
  let denominator :=
    fold_left (fun acc i => acc + (at1 xData i - xMean) * (at1 xData i - xMean)) idx 0 in
  let ssTotal :=
    fold_left (fun acc i => acc + (at1 yData i - yMean) * (at1 yData i - yMean)) idx 0 in
  let slope := if negb (denominator =? 0) then numerator / denominator else 0 in
  let intercept := yMean - slope * xMean in
  let ssRes :=
    fold_left (fun acc i =>
                 let predicted := slope * at1 xData i + intercept in
                 acc + (at1 yData i - predicted) * (at1 yData i - predicted)) idx 0 in
  let rSquared := if negb (ssTotal =? 0) then 1 - ssRes / ssTotal else 0 in
  {| slope := slope; intercept := intercept; rSquared := Math_max 0 rSquared |}.

(** [Math.pow(x, j)] for the exponents 0, 1 and 2 of the design matrix. *)
Definition pow (x : float) (j : nat) : float :=
  match j with
  | O => 1
  | S O => x
  | _ => x * x
  end.

Definition vandermonde (xData : list float) (degree : nat) : list (list float) :=
  map (fun x => map (fun j => pow x j) (seq 0 (S degree))) xData.

Definition transpose (X : list (list float)) : list (list float) :=
  map (fun colIndex => map (fun row => at1 row colIndex) X)
      (seq 0 (length (nth 0 X []))).

Definition dot (row1 row2 : list float) : float :=
  fold_left (fun acc i => acc + at1 row1 i * at1 row2 i) (seq 0 (length row1)) 0.

Definition det3 (XTX : list (list float)) : float :=
  at2 XTX 0 0 * (at2 XTX 1 1 * at2 XTX 2 2 - at2 XTX 1 2 * at2 XTX 2 1) -
  at2 XTX 0 1 * (at2 XTX 1 0 * at2 XTX 2 2 - at2 XTX 1 2 * at2 XTX 2 0) +
  at2 XTX 0 2 * (at2 XTX 1 0 * at2 XTX 2 1 - at2 XTX 1 1 * at2 XTX 2 0).

Definition cramer (XTX : list (list float)) (XTy : list float) (det : float)
    : list float :=
  [ (at1 XTy 0 * (at2 XTX 1 1 * at2 XTX 2 2 - at2 XTX 1 2 * at2 XTX 2 1) -
     at2 XTX 0 1 * (at1 XTy 1 * at2 XTX 2 2 - at1 XTy 2 * at2 XTX 1 2) +
     at2 XTX 0 2 * (at1 XTy 1 * at2 XTX 2 1 - at1 XTy 2 * at2 XTX 1 1)) / det;
    (at2 XTX 0 0 * (at1 XTy 1 * at2 XTX 2 2 - at1 XTy 2 * at2 XTX 1 2) -
     at1 XTy 0 * (at2 XTX 1 0 * at2 XTX 2 2 - at2 XTX 1 2 * at2 XTX 2 0) +
     at2 XTX 0 2 * (at2 XTX 1 0 * at1 XTy 2 - at1 XTy 1 * at2 XTX 2 0)) / det;
    (at2 XTX 0 0 * (at2 XTX 1 1 * at1 XTy 2 - at1 XTy 1 * at2 XTX 2 1) -
     at2 XTX 0 1 * (at2 XTX 1 0 * at1 XTy 2 - at1 XTy 1 * at2 XTX 2 0) +
     at1 XTy 0 * (at2 XTX 1 0 * at2 XTX 2 1 - at2 XTX 1 1 * at2 XTX 2 0)) / det ].

(** [computePolynomialRegression(xData, yData, 2)] *)
Definition computePolynomialRegression (xData yData : list float) : PolyFit :=
  let n := length xData in
  if (n <? 2 + 1)%nat then {| coefficients := [0; 0; 0]; polyRSquared := 0 |} else
  let XT := transpose (vandermonde xData 2) in
  let XTX := map (fun row1 => map (fun row2 => dot row1 row2) XT) XT in
  let XTy := map (fun row => dot row yData) XT in
  let det := det3 XTX in
  if abs det <? 1e-10 then
    let linear := computeLinearRegression xData yData in
    {| coefficients := [intercept linear; slope linear; 0];
       polyRSquared := rSquared linear |}
  else
  let coefficients := cramer XTX XTy det in
  let yMean := sum yData / len xData in
  let idx := seq 0 n in
  let predictedAt i :=
    at1 coefficients 0 + at1 coefficients 1 * at1 xData i +
    at1 coefficients 2 * at1 xData i * at1 xData i in
  let ssTotal :=
    fold_left (fun acc i => acc + (at1 yData i - yMean) * (at1 yData i - yMean)) idx 0 in
  let ssRes :=
    fold_left (fun acc i =>
                 acc + (at1 yData i - predictedAt i) * (at1 yData i - predictedAt i))
              idx 0 in
  let rSquared :=
    if negb (ssTotal =? 0) then Math_max 0 (1 - ssRes / ssTotal) else 0 in
  {| coefficients := coefficients; polyRSquared := rSquared |}.

(** The type and the R-squared of the model fitted to a window of prices
    (lines 289-299). *)
Definition fitModel (yData : list float) : ModelType * float :=
  let xData := map (fun i => of_Z (Z.of_nat i)) (seq 0 (length yData)) in
  let linearModel := computeLinearRegression xData yData in
  let polyRSquared :=
    if (5 <=? length yData)%nat
    then polyRSquared (computePolynomialRegression xData yData)
    else rSquared linearModel in
  if rSquared linearModel + 0.1 <? polyRSquared
  then (polynomial, polyRSquared)
  else (linear, rSquared linearModel).

(** The confidence of a fitted prediction (lines 363, 378-384, 398). *)
Definition confidence (r2 : float) (currentHour hoursAhead : Z) : float :=
  let confidence0 := Math_min 95 (r2 * 100) in
  let confidence1 :=
    if isPeakHour currentHour then confidence0 + 5
    else if isNightHour currentHour then confidence0 + 3
    else confidence0 in
  Math_max 25 (confidence1 - of_Z hoursAhead * 5).

(** The [confidence] of [predictPriceWithRegression(hoursAhead)] on a window
    of prices whose model is the fit of that window. *)
Definition predictConfidence (window : list float) (nowHours hoursAhead : Z)
    : float :=
  if (length window <? 3)%nat then 30 else
  confidence (snd (fitModel window)) (Z.rem (nowHours + hoursAhead) 24)
             hoursAhead.

(** Four prices that swing around a rising line: R-squared 4/13. *)
Definition swing : list float := [40; 48; 41; 49].

(** The same price six times: a decimal one and a whole one. *)
Definition flatDecimal : list float := [45.2; 45.2; 45.2; 45.2; 45.2; 45.2].
Definition flatWhole : list float := [45; 45; 45; 45; 45; 45].

End Double.

(** * Properties *)

(** ** Comparisons *)

Lemma Qltb_lt (a b : Q) : Qltb a b = true <-> a < b.
Proof.
  unfold Qltb. rewrite Qlt_alt.
  destruct (a ?= b); split; intro H; try reflexivity; discriminate H.
Qed.

Lemma Qltb_ge (a b : Q) : Qltb a b = false <-> b <= a.
Proof.
  split; intro H.
  - apply Qnot_lt_le. intro L. apply Qltb_lt in L. congruence.
  - destruct (Qltb a b) eqn:E; [|reflexivity].
    apply Qltb_lt in E. exfalso. apply (Qlt_not_le _ _ E H).
Qed.

Lemma Qmax_ge_l (a b : Q) : a <= Qmax a b.
Proof. apply Q.le_max_l. Qed.

Lemma Qmax_mono_r (a b c : Q) : b <= c -> Qmax a b <= Qmax a c.
Proof. intro H. apply Q.max_le_compat_l. exact H. Qed.

Lemma Qmin_le_l (a b : Q) : Qmin a b <= a.
Proof. apply Q.le_min_l. Qed.

(** ** Slices *)

Section Slices.

Context {A : Type}.

Lemma slice_last_length (n : nat) (l : list A) :
  length (slice_last n l) = Nat.min (length l) n.
Proof. unfold slice_last. rewrite length_skipn. lia. Qed.

Lemma slice_last_short (n : nat) (l : list A) :
  (length l <= n)%nat -> slice_last n l = l.
Proof.
  intro H. unfold slice_last.
  replace (length l - n)%nat with 0%nat by lia. reflexivity.
Qed.

(** Slicing an already sliced window again after an append loses nothing
    more than slicing once at the end. *)
Lemma slice_last_app (n : nat) (l m : list A) :
  slice_last n (slice_last n l ++ m) = slice_last n (l ++ m).
Proof.
  unfold slice_last at 1 3.
  rewrite !length_app, slice_last_length.
  unfold slice_last.
  set (k := (length l - n)%nat).
  replace (length l + length m - n)%nat
    with ((Nat.min (length l) n + length m - n) + k)%nat by lia.
  rewrite <- skipn_skipn.
  rewrite (skipn_app k l m).
  replace (k - length l)%nat with 0%nat by lia.
  reflexivity.
Qed.

Lemma lastEntry_app (l : list A) (e : A) : lastEntry (l ++ [e]) = Some e.
Proof.
  unfold lastEntry. rewrite length_app. simpl.
  replace (length l + 1 - 1)%nat with (length l) by lia.
  rewrite nth_error_app2 by lia.
  rewrite Nat.sub_diag. reflexivity.
Qed.

Lemma lastEntry_nil : lastEntry (@nil A) = None.
Proof. reflexivity. Qed.

(** A full window that is its own shift by one ends with the appended
    element. *)
Lemma slice_last_fixpoint (n : nat) (l : list A) (e : A) :
  (0 < n)%nat -> slice_last n (l ++ [e]) = l -> lastEntry l = Some e.
Proof.
  intros Hn H.
  assert (L : length (slice_last n (l ++ [e])) = length l) by (rewrite H; reflexivity).
  rewrite slice_last_length, length_app in L. simpl in L.
  assert (n = length l) by lia. subst n.
  unfold slice_last in H. rewrite length_app in H. simpl in H.
  replace (length l + 1 - length l)%nat with 1%nat in H by lia.
  destruct l as [|a l]; [simpl in Hn; lia|].
  simpl in H. rewrite <- H at 1.
  rewrite lastEntry_app. reflexivity.
Qed.

End Slices.

(** ** The rolling window *)

Lemma record_accepted (st : State) (s : Sample) :
  accepted st s = true ->
  priceHistory (recordSample st s)
  = slice_last 50 (priceHistory st ++ [entryOf s]).
Proof.
  unfold accepted, recordSample, record, entryOf.
  destruct (validPrice (s_marketData s)) as [p|]; [|discriminate].
  intro H. apply negb_true_iff in H. rewrite H. reflexivity.
Qed.

Lemma record_bounded (marketData : option MarketData) (now nowHours : Z)
    (st : State) :
  (length (priceHistory st) <= 50)%nat ->
  (length (priceHistory (record marketData now nowHours st)) <= 50)%nat.
Proof.
  intro H. unfold record.
  destruct (validPrice marketData) as [p|]; [|exact H].
  destruct (isDuplicate (priceHistory st) p now); [exact H|].
  cbn [priceHistory]. rewrite slice_last_length. lia.
Qed.

(** From any window of at most 50 entries, a run of accepted samples leaves
    the last 50 of the old entries followed by the new ones. *)
Lemma recordAll_window (samples : list Sample) :
  forall st : State,
    (length (priceHistory st) <= 50)%nat ->
    allAccepted st samples = true ->
    priceHistory (recordAll samples st)
    = slice_last 50 (priceHistory st ++ map entryOf samples).
Proof.
  induction samples as [|s rest IH]; intros st Hlen Hacc.
  - simpl. rewrite app_nil_r. symmetry. apply slice_last_short. exact Hlen.
  - simpl in Hacc. apply andb_true_iff in Hacc. destruct Hacc as [Hs Hrest].
    simpl. rewrite (IH (recordSample st s)).
    + rewrite (record_accepted st s Hs).
      rewrite slice_last_app. rewrite <- app_assoc. reflexivity.
    + apply record_bounded. exact Hlen.
    + exact Hrest.
Qed.

(** A window already holding 50 entries drops its oldest entry when a sample
    is accepted. *)
Lemma record_evicts_oldest (st : State) (s : Sample) :
  length (priceHistory st) = 50%nat ->
  accepted st s = true ->
  priceHistory (recordSample st s) = tl (priceHistory st) ++ [entryOf s].
Proof.
  intros Hlen Hacc. rewrite (record_accepted st s Hacc).
  unfold slice_last. rewrite length_app. simpl.
  replace (length (priceHistory st) + 1 - 50)%nat with 1%nat by lia.
  destruct (priceHistory st); [discriminate Hlen|reflexivity].
Qed.

(** C2. Starting from the empty window, after any run of samples that are
    all accepted by [record] (positive price, not rejected as a duplicate)
    the window holds the last 50 inserted entries in insertion order, so the
    entries dropped are the oldest ones, and its length is the minimum of the
    number of insertions and 50. *)
Theorem record_window_length (samples : list Sample) :
  allAccepted initialState samples = true ->
  priceHistory (recordAll samples initialState)
  = slice_last 50 (map entryOf samples) /\
  length (priceHistory (recordAll samples initialState))
  = Nat.min (length samples) 50.
Proof.
  intro Hacc.
  assert (E : priceHistory (recordAll samples initialState)
              = slice_last 50 (map entryOf samples)).
  { rewrite (recordAll_window samples initialState); [reflexivity| |exact Hacc].
    simpl. lia. }
  split; [exact E|].
  rewrite E, slice_last_length, length_map. reflexivity.
Qed.

Lemma record_window_length_witness :
  allAccepted initialState (rampSamples 4) = true /\
  priceHistory (recordAll (rampSamples 4) initialState)
  = slice_last 50 (map entryOf (rampSamples 4)) /\
  length (priceHistory (recordAll (rampSamples 4) initialState))
  = Nat.min (length (rampSamples 4)) 50.
Proof.
  split; [vm_compute; reflexivity|].
  apply (record_window_length (rampSamples 4)). vm_compute. reflexivity.
Defined.

(** With 52 accepted samples the two oldest entries are gone: the window
    starts at the third price. *)
Example record_window_eviction :
  allAccepted initialState (rampSamples 52) = true /\
  length (priceHistory (recordAll (rampSamples 52) initialState)) = 50%nat /\
  option_map price (hd_error (priceHistory (recordAll (rampSamples 52) initialState)))
  = Some (40 + 2).
Proof. lazy. repeat split. Qed.

(** ** Duplicate suppression *)

Lemma isDuplicate_spec (prev : list PriceEntry) (p : Q) (now : Z) :
  isDuplicate prev p now = true <->
  exists e, lastEntry prev = Some e /\
            Qabs (price e - p) < 0.01 /\ (now - timestamp e < 30000)%Z.
Proof.
  unfold isDuplicate. split.
  - destruct (lastEntry prev) as [e|]; [|discriminate].
    intro H. apply andb_true_iff in H. destruct H as [Hp Ht].
    exists e. split; [reflexivity|]. split.
    + apply Qltb_lt. exact Hp.
    + apply Z.ltb_lt. exact Ht.
  - intros [e [He [Hp Ht]]]. rewrite He.
    apply andb_true_iff. split.
    + apply Qltb_lt. exact Hp.
    + apply Z.ltb_lt. exact Ht.
Qed.

(** The entry that [record] appends is a duplicate of itself. *)
Lemma isDuplicate_own_entry (prev : list PriceEntry)
    (marketData : option MarketData) (p : Q) (now nowHours : Z) :
  lastEntry prev = Some (newEntry marketData p now nowHours) ->
  isDuplicate prev p now = true.
Proof.
  intro H. unfold isDuplicate. rewrite H. cbn [price timestamp newEntry].
  apply andb_true_iff. split.
  - apply Qltb_lt. apply Qabs_Qlt_condition. split; lra.
  - apply Z.ltb_lt. lia.
Qed.

(** C3 (as the code has it). For a sample whose price passes the guard,
    [record] leaves the state unchanged exactly when the window is not empty
    and its most recent entry is less than 30 seconds older than the sample
    and differs from it in price by less than 0.01.  Earlier entries are not
    looked at.  Otherwise the sample is appended; this is the case in
    particular when the most recent entry is 30 seconds old or more, whatever
    the prices. *)
Theorem record_noop_iff (marketData : option MarketData) (now nowHours : Z)
    (st : State) (p : Q) :
  validPrice marketData = Some p ->
  (record marketData now nowHours st = st <->
   exists e, lastEntry (priceHistory st) = Some e /\
             Qabs (price e - p) < 0.01 /\ (now - timestamp e < 30000)%Z) /\
  ((forall e, lastEntry (priceHistory st) = Some e ->
              (30000 <= now - timestamp e)%Z) ->
   priceHistory (record marketData now nowHours st)
   = slice_last 50 (priceHistory st ++ [newEntry marketData p now nowHours])).
Proof.
  intro Hp. split.
  - rewrite <- isDuplicate_spec. unfold record. rewrite Hp.
    destruct (isDuplicate (priceHistory st) p now) eqn:D.
    + split; reflexivity.
    + split; [|discriminate]. intro H. exfalso.
      apply (f_equal priceHistory) in H. cbn [priceHistory] in H.
      apply slice_last_fixpoint in H; [|lia].
      apply isDuplicate_own_entry in H. congruence.
  - intro Hold. unfold record. rewrite Hp.
    destruct (isDuplicate (priceHistory st) p now) eqn:D; [|reflexivity].
    exfalso. apply isDuplicate_spec in D. destruct D as [e [He [_ Ht]]].
    specialize (Hold e He). lia.
Qed.

Lemma record_noop_iff_witness :
  validPrice (priceOnly 45.0) = Some 45.0 /\
  priceHistory (record (priceOnly 45.0) 31000 14
                       (recordAll [sampleAt 45.0 0] initialState))
  = slice_last 50
      (priceHistory (recordAll [sampleAt 45.0 0] initialState)
       ++ [newEntry (priceOnly 45.0) 45.0 31000 14]).
Proof.
  split; [reflexivity|].
  apply (record_noop_iff (priceOnly 45.0) 31000 14
           (recordAll [sampleAt 45.0 0] initialState) 45.0); [reflexivity|].
  intros e He. vm_compute in He. injection He as <-. simpl. lia.
Defined.

Example scenarioC_length :
  length (priceHistory (recordAll scenarioC initialState)) = 3%nat.
Proof. vm_compute. reflexivity. Qed.

(** C3 (as stated) fails: with 45.0 at time 0 and 50.0 at 10 s in the window,
    the sample 45.0 at 20 s has a prior sample within 30 seconds at the same
    price, yet [record] appends it, because only the most recent entry (50.0)
    is compared. *)
Lemma record_prior_sample_counterexample :
  ~ (record (priceOnly 45.0) 20000 14 twoPrices = twoPrices <->
     exists e, In e (priceHistory twoPrices) /\
               Qabs (price e - 45.0) < 0.01 /\ (20000 - timestamp e < 30000)%Z).
Proof.
  intros [_ H].
  assert (E : record (priceOnly 45.0) 20000 14 twoPrices = twoPrices).
  { apply H.
    exists (newEntry (priceOnly 45.0) 45.0 0 14).
    split; [vm_compute; left; reflexivity|].
    split; [vm_compute; reflexivity|simpl; lia]. }
  apply (f_equal (fun s => length (priceHistory s))) in E.
  vm_compute in E. discriminate E.
Qed.

(** The first price effect, taken alone, drops a sample whose price is within
    0.01 of the last one however old that entry is. *)
Lemma appendOnPriceChange_ignores_age (marketData : option MarketData)
    (now : Z) (st : State) (p : Q) (e : PriceEntry) :
  validPrice marketData = Some p ->
  lastEntry (priceHistory st) = Some e ->
  Qabs (price e - p) < 0.01 ->
  appendOnPriceChange marketData now st = st.
Proof.
  intros Hp He Hd. unfold appendOnPriceChange. rewrite Hp, He.
  cbn [price]. apply Qltb_lt in Hd. rewrite Hd. reflexivity.
Qed.

(** ** Fitting *)

Lemma computeLinearRegression_linear (xData yData : list Q) :
  exists s i r, computeLinearRegression xData yData = LinearResult s i r.
Proof.
  unfold computeLinearRegression.
  destruct (length xData <? 2)%nat; repeat eexists.
Qed.

(** Whatever the input arrays, [computePolynomialRegression] returns an
    object with three coefficients. *)
Lemma computePolynomialRegression_total (xData yData : list Q) :
  exists c0 c1 c2 r,
    computePolynomialRegression xData yData = PolyResult [c0; c1; c2] r.
Proof.
  unfold computePolynomialRegression.
  destruct (length xData <? 2 + 1)%nat; [repeat eexists|].
  destruct (Qltb (Qabs (det3 (normalMatrix xData))) 1e-10);
    unfold cramer; repeat eexists.
Qed.

(** No number exceeds itself by more than 0.1. *)
Lemma Qgtb_self_margin (r : Q) : Qgtb r (r + 0.1) = false.
Proof. unfold Qgtb. apply Qltb_ge. lra. Qed.

(** [type] and [fields] of the fitted model, by the test that selects them. *)
Lemma fitModel_selected (newHistory : list PriceEntry) (now : Z) :
  let linearModel := computeLinearRegression (timeIndex newHistory) (prices newHistory) in
  let polyModel :=
    if (5 <=? length newHistory)%nat
    then computePolynomialRegression (timeIndex newHistory) (prices newHistory)
    else linearModel in
  (Qgtb (rSquared polyModel) (rSquared linearModel + 0.1) = true /\
   type (fitModel newHistory now) = polynomial /\
   fields (fitModel newHistory now) = polyModel /\
   trend (fitModel newHistory now) = complex) \/
  (Qgtb (rSquared polyModel) (rSquared linearModel + 0.1) = false /\
   type (fitModel newHistory now) = linear /\
   fields (fitModel newHistory now) = linearModel /\
   trend (fitModel newHistory now) = slopeTrend (slope linearModel)).
Proof.
  intros linearModel polyModel. unfold fitModel.
  fold linearModel. fold polyModel.
  destruct (Qgtb (rSquared polyModel) (rSquared linearModel + 0.1)).
  - left. repeat split.
  - right. repeat split.
Qed.

(** Every fitted model is well formed, so [predictPriceWithRegression]
    never reads a missing property from it. *)
Lemma fitModel_shape (newHistory : list PriceEntry) (now : Z) :
  wellFormed (fitModel newHistory now).
Proof.
  unfold wellFormed.
  destruct (fitModel_selected newHistory now) as [[G [T [F _]]]|[_ [T [F _]]]];
    rewrite T, F.
  - destruct (5 <=? length newHistory)%nat.
    + apply computePolynomialRegression_total.
    + rewrite Qgtb_self_margin in G. discriminate G.
  - apply computeLinearRegression_linear.
Qed.

(** [record] refits the model whenever it appends and the new window has at
    least 3 entries. *)
Lemma record_refits (st : State) (s : Sample) :
  accepted st s = true ->
  (3 <= length (priceHistory (recordSample st s)))%nat ->
  regressionModel (recordSample st s)
  = Some (fitModel (priceHistory (recordSample st s)) (s_now s)).
Proof.
  unfold accepted, recordSample, record.
  destruct (validPrice (s_marketData s)) as [p|]; [|discriminate].
  intro H. apply negb_true_iff in H. rewrite H. cbn [priceHistory regressionModel].
  intro L. apply Nat.leb_le in L. rewrite L. reflexivity.
Qed.

Lemma appendOnPriceChange_bounded (marketData : option MarketData) (now : Z)
    (st : State) :
  (length (priceHistory st) <= 50)%nat ->
  (length (priceHistory (appendOnPriceChange marketData now st)) <= 50)%nat.
Proof.
  intro H. unfold appendOnPriceChange.
  destruct (validPrice marketData) as [p|]; [|exact H].
  destruct (lastEntry (priceHistory st)) as [e|];
    [destruct (Qltb _ _); [exact H|]|];
    cbn [priceHistory];
    match goal with
    | |- context [(50 <? ?n)%nat] => destruct (Nat.ltb_spec 50 n)
    end;
    try (rewrite slice_last_length; lia); lia.
Qed.

(** In every reachable state the window has at most 50 entries and the
    model, when there is one, is well formed. *)
Lemma reachable_invariant (st : State) :
  Reachable st ->
  (length (priceHistory st) <= 50)%nat /\
  (forall m, regressionModel st = Some m -> wellFormed m).
Proof.
  induction 1 as [|marketData now nowHours st R [IHl IHm]
                  |marketData now st R [IHl IHm]].
  - split; [simpl; lia|discriminate].
  - split; [apply record_bounded; exact IHl|].
    unfold record.
    destruct (validPrice marketData) as [p|]; [|exact IHm].
    destruct (isDuplicate (priceHistory st) p now); [exact IHm|].
    cbn [regressionModel priceHistory].
    destruct (3 <=? _)%nat; [|exact IHm].
    intros m E. injection E as <-. apply fitModel_shape.
  - split; [apply appendOnPriceChange_bounded; exact IHl|].
    unfold appendOnPriceChange.
    destruct (validPrice marketData) as [p|]; [|exact IHm].
    destruct (lastEntry (priceHistory st)) as [e|];
      [destruct (Qltb _ _); exact IHm|exact IHm].
Qed.

(** A missing, zero or negative price changes nothing. *)
Lemma record_invalid_price (marketData : option MarketData) (now nowHours : Z)
    (st : State) :
  (forall p, currentPriceOf marketData = Some p -> p <= 0) ->
  record marketData now nowHours st = st.
Proof.
  intro H. unfold record, validPrice.
  destruct (currentPriceOf marketData) as [p|]; [|reflexivity].
  specialize (H p eq_refl).
  replace (Qgtb p 0) with false by (symmetry; apply Qltb_ge; exact H).
  rewrite andb_false_r. reflexivity.
Qed.

(** C4. On a window of at least 5 entries the fitted model is the polynomial
    one exactly when the polynomial R-squared exceeds the linear R-squared by
    more than 0.1, and the linear one exactly when it does not (ties and
    smaller improvements included); on a shorter window, 3 or 4 entries in
    particular, the fitted model is always the linear one. *)
Theorem fitModel_selection (newHistory : list PriceEntry) (now : Z) :
  let xData := timeIndex newHistory in
  let yData := prices newHistory in
  ((5 <= length newHistory)%nat ->
   (type (fitModel newHistory now) = polynomial <->
    rSquared (computePolynomialRegression xData yData)
    > rSquared (computeLinearRegression xData yData) + 0.1) /\
   (type (fitModel newHistory now) = linear <->
    rSquared (computePolynomialRegression xData yData)
    <= rSquared (computeLinearRegression xData yData) + 0.1)) /\
  ((length newHistory < 5)%nat -> type (fitModel newHistory now) = linear).
Proof.
  intros xData yData. split.
  - intro H5. apply Nat.leb_le in H5.
    destruct (fitModel_selected newHistory now) as [[G [T _]]|[G [T _]]];
      rewrite H5 in G; fold xData yData in G; rewrite T.
    + apply Qltb_lt in G. split; split; intro H; try reflexivity; try discriminate H.
      * exact G.
      * exfalso. apply (Qlt_not_le _ _ G H).
    + apply Qltb_ge in G. split; split; intro H; try reflexivity; try discriminate H.
      * exfalso. apply (Qlt_not_le _ _ H G).
      * exact G.
  - intro H4. apply Nat.leb_gt in H4.
    destruct (fitModel_selected newHistory now) as [[G _]|[_ [T _]]]; [|exact T].
    rewrite H4, Qgtb_self_margin in G. discriminate G.
Qed.

Lemma fitModel_selection_witness :
  (5 <= length (priceHistory valley))%nat /\
  (type (fitModel (priceHistory valley) 0) = polynomial <->
   rSquared (computePolynomialRegression (timeIndex (priceHistory valley))
                                         (prices (priceHistory valley)))
   > rSquared (computeLinearRegression (timeIndex (priceHistory valley))
                                       (prices (priceHistory valley))) + 0.1).
Proof.
  split; [vm_compute; lia|].
  apply (fitModel_selection (priceHistory valley) 0).
  vm_compute. lia.
Defined.

Example valley_is_polynomial :
  option_map type (regressionModel valley) = Some polynomial.
Proof. vm_compute. reflexivity. Qed.

Example ramp_is_linear :
  option_map type (regressionModel ramp) = Some linear /\
  option_map trend (regressionModel ramp) = Some upward.
Proof. vm_compute. split; reflexivity. Qed.

(** C5. On at least 3 points (the polynomial fit computes no determinant on
    fewer), whenever the determinant of the normal equations is below 1e-10
    in absolute value the polynomial fit returns the coefficients of the
    linear fit followed by a zero quadratic term, with the linear R-squared;
    and on every input the fit returns a result: three coefficients and an
    R-squared. *)
Theorem computePolynomialRegression_degenerate (xData yData : list Q) :
  ((3 <= length xData)%nat ->
   Qabs (det3 (normalMatrix xData)) < 1e-10 ->
   computePolynomialRegression xData yData
   = PolyResult [intercept (computeLinearRegression xData yData);
                 slope (computeLinearRegression xData yData); 0]
                (rSquared (computeLinearRegression xData yData))) /\
  (exists c0 c1 c2 r,
     computePolynomialRegression xData yData = PolyResult [c0; c1; c2] r).
Proof.
  split; [|apply computePolynomialRegression_total].
  intros Hn Hdet. unfold computePolynomialRegression.
  replace (length xData <? 2 + 1)%nat with false
    by (symmetry; apply Nat.ltb_ge; simpl; lia).
  apply Qltb_lt in Hdet. rewrite Hdet. reflexivity.
Qed.

Lemma computePolynomialRegression_degenerate_witness :
  (3 <= length [1; 1; 1])%nat /\
  Qabs (det3 (normalMatrix [1; 1; 1])) < 1e-10 /\
  computePolynomialRegression [1; 1; 1] [1; 2; 3]
  = PolyResult [intercept (computeLinearRegression [1; 1; 1] [1; 2; 3]);
                slope (computeLinearRegression [1; 1; 1] [1; 2; 3]); 0]
               (rSquared (computeLinearRegression [1; 1; 1] [1; 2; 3])).
Proof.
  split; [simpl; lia|]. split; [vm_compute; reflexivity|].
  apply (computePolynomialRegression_degenerate [1; 1; 1] [1; 2; 3]).
  - simpl. lia.
  - vm_compute. reflexivity.
Defined.

(** The window indices 0..4 are not degenerate: the determinant is 700. *)
Example det3_five_points :
  det3 (normalMatrix (timeIndex (priceHistory valley))) == 700.
Proof. vm_compute. reflexivity. Qed.

(** ** Trend *)

Lemma slopeTrend_spec (s : Q) :
  (s > 0.01 -> slopeTrend s = upward) /\
  (s < -0.01 -> slopeTrend s = downward) /\
  (-0.01 <= s <= 0.01 -> slopeTrend s = stable).
Proof.
  unfold slopeTrend, Qgtb.
  destruct (Qltb 0.01 s) eqn:U; [apply Qltb_lt in U|apply Qltb_ge in U];
    (destruct (Qltb s (-0.01)) eqn:D; [apply Qltb_lt in D|apply Qltb_ge in D]);
    repeat split; intros; try reflexivity; exfalso; lra.
Qed.

(** C6 (as the code has it). When the linear model is selected the trend is
    upward for a slope above 0.01, downward for a slope below -0.01 and
    stable in between; when the polynomial model is selected the trend is
    the separate label complex, not a label of the linear slope. *)
Theorem fitModel_trend (newHistory : list PriceEntry) (now : Z) :
  let s := slope (computeLinearRegression (timeIndex newHistory)
                                          (prices newHistory)) in
  match type (fitModel newHistory now) with
  | linear =>
    trend (fitModel newHistory now) = slopeTrend s /\
    (s > 0.01 -> trend (fitModel newHistory now) = upward) /\
    (s < -0.01 -> trend (fitModel newHistory now) = downward) /\
    (-0.01 <= s <= 0.01 -> trend (fitModel newHistory now) = stable)
  | polynomial => trend (fitModel newHistory now) = complex
  end.
Proof.
  intro s.
  destruct (fitModel_selected newHistory now) as [[_ [T [_ R]]]|[_ [T [_ R]]]];
    rewrite T, R; [reflexivity|].
  fold s. split; [reflexivity|]. apply slopeTrend_spec.
Qed.

(** C6 (as stated) fails: the V-shaped window selects the polynomial model;
    its linear slope is 0, which would be labelled stable, but the model's
    trend is complex. *)
Lemma fitModel_trend_counterexample :
  exists m,
    regressionModel valley = Some m /\
    (3 <= length (priceHistory valley))%nat /\
    m = fitModel (priceHistory valley) (lastUpdate m) /\
    type m = polynomial /\
    slopeTrend (slope (computeLinearRegression (timeIndex (priceHistory valley))
                                               (prices (priceHistory valley))))
    = stable /\
    trend m <> stable.
Proof.
  eexists. split; [vm_compute; reflexivity|].
  split; [vm_compute; lia|].
  split; [vm_compute; reflexivity|].
  split; [reflexivity|].
  split; [vm_compute; reflexivity|].
  cbn [trend]. discriminate.
Qed.

(** ** Prediction *)

Section PredictProperties.

Variable Math_sqrt : Q -> Q.

Lemma predict_path (st : State) : PredictPath st.
Proof.
  destruct (regressionModel st) as [model|] eqn:M.
  - destruct (Nat.lt_ge_cases (length (priceHistory st)) 3) as [L|L].
    + apply FallbackPath. right. exact L.
    + apply (FittedPath st model); [exact M|exact L].
  - apply FallbackPath. left. exact M.
Qed.

Lemma predict_fallback (st : State) (marketData : option MarketData)
    (nowHours : Z) (random : nat -> Q) (hoursAhead : Z) :
  regressionModel st = None \/ (length (priceHistory st) < 3)%nat ->
  predictPriceWithRegression Math_sqrt st marketData nowHours random hoursAhead
  = fallbackPrediction marketData.
Proof.
  intro H. unfold predictPriceWithRegression.
  destruct (regressionModel st) as [model|]; [|reflexivity].
  destruct H as [H|H]; [discriminate H|].
  apply Nat.ltb_lt in H. rewrite H. reflexivity.
Qed.

Ltac fitted_path M L :=
  unfold predictPriceWithRegression; rewrite M;
  apply Nat.ltb_ge in L; rewrite L;
  destruct (isPeakHour _); [|destruct (isNightHour _)].

Lemma predict_fitted_confidence (st : State) (model : RegressionModel)
    (marketData : option MarketData) (nowHours : Z) (random : nat -> Q)
    (hoursAhead : Z) :
  regressionModel st = Some model ->
  (3 <= length (priceHistory st))%nat ->
  confidence (predictPriceWithRegression Math_sqrt st marketData nowHours random hoursAhead)
  = confidenceAt (rSquared (fields model))
                 (Z.rem (nowHours + hoursAhead) 24) hoursAhead.
Proof.
  intros M L. unfold confidenceAt. fitted_path M L; reflexivity.
Qed.

Lemma predict_fitted_labels (st : State) (model : RegressionModel)
    (marketData : option MarketData) (nowHours : Z) (random : nat -> Q)
    (hoursAhead : Z) :
  regressionModel st = Some model ->
  (3 <= length (priceHistory st))%nat ->
  method (predictPriceWithRegression Math_sqrt st marketData nowHours random hoursAhead)
  = ofModel (type model) /\
  p_rSquared (predictPriceWithRegression Math_sqrt st marketData nowHours random hoursAhead)
  = Some (rSquared (fields model)) /\
  p_trend (predictPriceWithRegression Math_sqrt st marketData nowHours random hoursAhead)
  = Some (trend model) /\
  volatility (predictPriceWithRegression Math_sqrt st marketData nowHours random hoursAhead)
  = Some (volatilityOf Math_sqrt (priceHistory st)).
Proof.
  intros M L. fitted_path M L; repeat split.
Qed.

Lemma predict_fitted_price_floor (st : State) (model : RegressionModel)
    (marketData : option MarketData) (nowHours : Z) (random : nat -> Q)
    (hoursAhead : Z) :
  regressionModel st = Some model ->
  (3 <= length (priceHistory st))%nat ->
  10 <= predictedPrice (predictPriceWithRegression Math_sqrt st marketData nowHours random hoursAhead).
Proof.
  intros M L. fitted_path M L; cbn [predictedPrice]; apply Qmax_ge_l.
Qed.

(** The time-of-day bonus is 0, 3 or 5. *)
Lemma confidenceAt_bounds (r2 : Q) (currentHour hoursAhead : Z) :
  (0 <= hoursAhead)%Z ->
  25 <= confidenceAt r2 currentHour hoursAhead <= 100.
Proof.
  intro Hk. unfold confidenceAt. split; [apply Qmax_ge_l|].
  assert (B := Qmin_le_l 95 (r2 * 100)).
  assert (K : 0 <= inject_Z hoursAhead)
    by (change 0 with (inject_Z 0); rewrite <- Zle_Qle; exact Hk).
  apply Q.max_lub; [lra|].
  destruct (isPeakHour currentHour); [|destruct (isNightHour currentHour)]; lra.
Qed.

(** One more step ahead costs 5 points and gains at most the 5 points of the
    peak bonus, whatever the two target hours are. *)
Lemma confidenceAt_step (r2 : Q) (h h' hoursAhead : Z) :
  confidenceAt r2 h' (hoursAhead + 1) <= confidenceAt r2 h hoursAhead.
Proof.
  unfold confidenceAt. apply Qmax_mono_r.
  assert (S : inject_Z (hoursAhead + 1) == inject_Z hoursAhead + 1)
    by (rewrite inject_Z_plus; reflexivity).
  rewrite S.
  destruct (isPeakHour h'); [|destruct (isNightHour h')];
    (destruct (isPeakHour h); [|destruct (isNightHour h)]); lra.
Qed.

(** C1 (as the code has it). With fewer than 3 entries in the window, for
    every [hoursAhead], every model state and every window content, the
    prediction is exactly [{ predictedPrice: marketData?.currentPrice ||
    45.0, confidence: 30, method: 'fallback' }]: the price is the caller's
    current price, or 45.0 when that is missing or 0, and the object has no
    trend property (nor rSquared, nor volatility). *)
Theorem predict_insufficient_data (st : State)
    (marketData : option MarketData) (nowHours : Z) (random : nat -> Q)
    (hoursAhead : Z) :
  (length (priceHistory st) < 3)%nat ->
  predictPriceWithRegression Math_sqrt st marketData nowHours random hoursAhead
  = {| predictedPrice := orDefault (currentPriceOf marketData) 45.0;
       confidence := 30;
       method := fallback;
       p_rSquared := None; p_trend := None; volatility := None |}.
Proof.
  intro H. apply predict_fallback. right. exact H.
Qed.

(** In exact arithmetic one more step ahead never raises the confidence,
    whatever the two target hours, and the confidence is never below 25. *)
Lemma predict_confidence_monotone_exact (st : State)
    (marketData : option MarketData) (nowHours nowHours' : Z)
    (random random' : nat -> Q) (hoursAhead : Z) :
  confidence (predictPriceWithRegression Math_sqrt st marketData nowHours' random' (hoursAhead + 1))
  <= confidence (predictPriceWithRegression Math_sqrt st marketData nowHours random hoursAhead) /\
  25 <= confidence (predictPriceWithRegression Math_sqrt st marketData nowHours random hoursAhead).
Proof.
  destruct (predict_path st) as [F|model M L].
  - rewrite !(predict_fallback st) by exact F.
    cbn [confidence fallbackPrediction]. split; lra.
  - rewrite !(predict_fitted_confidence st model) by assumption.
    split; [apply confidenceAt_step|].
    unfold confidenceAt. apply Qmax_ge_l.
Qed.

(** C8 (as the code has it). On the fitted path (a model and at least 3
    entries) the predicted price is at least 10 for every window content,
    every [hoursAhead] and all random draws; on the fallback path it is the
    caller's price ([marketData?.currentPrice || 45.0]) as it is, with no
    floor applied. *)
Theorem predict_price_floor (st : State) (marketData : option MarketData)
    (nowHours : Z) (random : nat -> Q) (hoursAhead : Z) :
  (forall model,
     regressionModel st = Some model ->
     (3 <= length (priceHistory st))%nat ->
     10 <= predictedPrice (predictPriceWithRegression Math_sqrt st marketData nowHours random hoursAhead)) /\
  (regressionModel st = None \/ (length (priceHistory st) < 3)%nat ->
   predictedPrice (predictPriceWithRegression Math_sqrt st marketData nowHours random hoursAhead)
   = orDefault (currentPriceOf marketData) 45.0).
Proof.
  split.
  - intros model M L. apply (predict_fitted_price_floor st model); assumption.
  - intro F. rewrite (predict_fallback st) by exact F. reflexivity.
Qed.

(** C10. For every state, every window content and every [hoursAhead >= 0]
    the confidence lies in [25, 100]: it is 30 on the fallback path and
    [max(25, min(95, rSquared * 100) + bonus - 5 * hoursAhead)] with a bonus
    of 0, 3 or 5 on the fitted path. *)
Theorem predict_confidence_range (st : State) (marketData : option MarketData)
    (nowHours : Z) (random : nat -> Q) (hoursAhead : Z) :
  (0 <= hoursAhead)%Z ->
  25 <= confidence (predictPriceWithRegression Math_sqrt st marketData nowHours random hoursAhead) <= 100 /\
  (regressionModel st = None \/ (length (priceHistory st) < 3)%nat ->
   confidence (predictPriceWithRegression Math_sqrt st marketData nowHours random hoursAhead) = 30).
Proof.
  intro Hk. destruct (predict_path st) as [F|model M L].
  - rewrite (predict_fallback st) by exact F.
    cbn [confidence fallbackPrediction]. split; [lra|reflexivity].
  - rewrite (predict_fitted_confidence st model) by assumption.
    split; [apply confidenceAt_bounds; exact Hk|].
    intros [N|S]; [congruence|lia].
Qed.

(** C9 (as the code has it). The confidence, the method, the trend, the
    R-squared and the volatility of a prediction do not depend on the random
    draws, and on the fallback path nothing does; the predicted price of the
    fitted path depends on them through the peak/night multiplier and the
    noise term, so two calls return the same prediction when their first two
    draws agree. *)
Theorem predict_random_dependence (st : State)
    (marketData : option MarketData) (nowHours : Z)
    (random random' : nat -> Q) (hoursAhead : Z) :
  let p := predictPriceWithRegression Math_sqrt st marketData nowHours random hoursAhead in
  let p' := predictPriceWithRegression Math_sqrt st marketData nowHours random' hoursAhead in
  confidence p = confidence p' /\
  method p = method p' /\
  p_trend p = p_trend p' /\
  p_rSquared p = p_rSquared p' /\
  volatility p = volatility p' /\
  (regressionModel st = None \/ (length (priceHistory st) < 3)%nat -> p = p') /\
  (random 0%nat = random' 0%nat -> random 1%nat = random' 1%nat -> p = p').
Proof.
  intros p p'. subst p p'.
  destruct (predict_path st) as [F|model M L].
  - rewrite !(predict_fallback st) by exact F. repeat split.
  - rewrite !(predict_fitted_confidence st model) by assumption.
    destruct (predict_fitted_labels st model marketData nowHours random
                hoursAhead M L) as [E1 [E2 [E3 E4]]].
    destruct (predict_fitted_labels st model marketData nowHours random'
                hoursAhead M L) as [E1' [E2' [E3' E4']]].
    rewrite E1, E2, E3, E4, E1', E2', E3', E4'.
    repeat split.
    + intros [N|S]; [congruence|lia].
    + intros R0 R1. fitted_path M L; rewrite ?R0, ?R1; reflexivity.
Qed.

End PredictProperties.

(** ** The predictor on sample windows *)

(** Scenario A: empty window, current price 45.0, one step ahead. *)
Lemma predict_insufficient_data_witness :
  (length (priceHistory initialState) < 3)%nat /\
  predictPriceWithRegression Qsqrt initialState (priceOnly 45.0) 9 drawsLow 1
  = {| predictedPrice := 45.0; confidence := 30; method := fallback;
       p_rSquared := None; p_trend := None; volatility := None |}.
Proof.
  split; [simpl; lia|].
  apply (predict_insufficient_data Qsqrt initialState (priceOnly 45.0) 9
           drawsLow 1).
  simpl. lia.
Defined.

(** C1 (as stated) fails: the fallback object of scenario A carries no trend,
    so its trend is not stable. *)
Lemma predict_insufficient_data_counterexample :
  (length (priceHistory initialState) < 3)%nat /\
  p_trend (predictPriceWithRegression Qsqrt initialState (priceOnly 45.0) 9
             drawsLow 1)
  <> Some stable.
Proof. split; [simpl; lia|]. vm_compute. discriminate. Qed.

(** On the steep window the line reaches 0 one step ahead and -80 five steps
    ahead; the prediction is held at 10. *)
Lemma predict_price_floor_witness :
  10 <= predictedPrice
          (predictPriceWithRegression Qsqrt steep (priceOnly 20) 14 drawsHalf 5).
Proof.
  eapply (proj1 (predict_price_floor Qsqrt steep (priceOnly 20) 14 drawsHalf 5)).
  - vm_compute. reflexivity.
  - vm_compute. lia.
Defined.

Example steep_is_clamped :
  predictedPrice
    (predictPriceWithRegression Qsqrt steep (priceOnly 20) 14 drawsHalf 5)
  == 10.
Proof. vm_compute. reflexivity. Qed.

(** C8 (as stated) fails on the fallback path: with an empty window and a
    current price of 5 the predicted price is 5, below the floor of 10. *)
Lemma predict_price_floor_counterexample :
  ~ 10 <= predictedPrice
            (predictPriceWithRegression Qsqrt initialState (priceOnly 5) 9
               drawsLow 1).
Proof. vm_compute. intro H. apply H. reflexivity. Qed.

Lemma predict_confidence_range_witness :
  (0 <= 1)%Z /\
  25 <= confidence
          (predictPriceWithRegression Qsqrt valley (priceOnly 5) 9 drawsHalf 1)
     <= 100.
Proof.
  split; [lia|].
  apply (predict_confidence_range Qsqrt valley (priceOnly 5) 9 drawsHalf 1).
  lia.
Defined.

(** On the V-shaped window (R-squared 1) at 9 o'clock: 100 with the peak
    bonus at step 0, then 95, 90, 85 through the peak hours, and 75 at step 4
    where the target hour 13 has no bonus. *)
Example valley_confidences :
  map (fun k => Qred (confidence
                        (predictPriceWithRegression Qsqrt valley (priceOnly 5)
                           9 drawsHalf k)))
      [0; 1; 2; 3; 4; 20]%Z
  = [100; 95; 90; 85; 75; 25].
Proof. vm_compute. reflexivity. Qed.

(** C9 (as stated) fails: on the flat window at 9 o'clock, one step ahead
    (a peak hour), the predicted price is 42 when [Math.random()] returns 0
    and 43 when it returns 0.5. *)
Lemma predict_random_dependence_counterexample :
  ~ predictedPrice
      (predictPriceWithRegression Qsqrt flat (priceOnly 40) 9 drawsLow 1)
    == predictedPrice
         (predictPriceWithRegression Qsqrt flat (priceOnly 40) 9 drawsHalf 1).
Proof. vm_compute. discriminate. Qed.

Example flat_predictions :
  predictedPrice
    (predictPriceWithRegression Qsqrt flat (priceOnly 40) 9 drawsLow 1) == 42 /\
  predictedPrice
    (predictPriceWithRegression Qsqrt flat (priceOnly 40) 9 drawsHalf 1) == 43.
Proof. split; vm_compute; reflexivity. Qed.

Lemma predict_random_dependence_witness :
  predictPriceWithRegression Qsqrt flat (priceOnly 40) 9 drawsHalf 1
  = predictPriceWithRegression Qsqrt flat (priceOnly 40) 9 drawsHalfThen 1.
Proof.
  apply (predict_random_dependence Qsqrt flat (priceOnly 40) 9 drawsHalf
           drawsHalfThen 1); reflexivity.
Defined.

(** Scenario B: on the ramp 40, 42, 44, 46, 48 the line is exact; outside
    the peak and night hours and with a draw of 0.5 (no noise) the prediction
    is 48 at step 0 and 50 at step 1. *)
Example ramp_predictions :
  predictedPrice
    (predictPriceWithRegression Qsqrt ramp (priceOnly 48) 13 drawsHalf 0) == 48 /\
  predictedPrice
    (predictPriceWithRegression Qsqrt ramp (priceOnly 48) 13 drawsHalf 1) == 50.
Proof. split; vm_compute; reflexivity. Qed.

(** On the ramp the linear model is kept and its slope 2 gives the trend. *)
Lemma fitModel_trend_witness :
  slope (computeLinearRegression (timeIndex (priceHistory ramp))
                                 (prices (priceHistory ramp))) > 0.01 /\
  trend (fitModel (priceHistory ramp) 0) = upward.
Proof.
  split; [vm_compute; reflexivity|].
  assert (T : type (fitModel (priceHistory ramp) 0) = linear)
    by (vm_compute; reflexivity).
  pose proof (fitModel_trend (priceHistory ramp) 0) as H.
  cbv zeta in H. rewrite T in H.
  apply H. vm_compute. reflexivity.
Defined.

(** * More properties of the component *)

(** ** Sums *)

Section Sums.

Context {A : Type}.

Lemma fold_sum_ext (f g : A -> Q) (l : list A) :
  forall a b : Q,
    a == b -> (forall x, In x l -> f x == g x) ->
    fold_left (fun acc x => acc + f x) l a
    == fold_left (fun acc x => acc + g x) l b.
Proof.
  induction l as [|x l IH]; intros a b Hab Hfg; simpl; [exact Hab|].
  apply IH.
  - rewrite Hab, (Hfg x) by (left; reflexivity). reflexivity.
  - intros y Hy. apply Hfg. right. exact Hy.
Qed.

Lemma fold_sum_shift (f : A -> Q) (l : list A) :
  forall a : Q,
    fold_left (fun acc x => acc + f x) l a
    == a + fold_left (fun acc x => acc + f x) l 0.
Proof.
  induction l as [|x l IH]; intro a; simpl; [lra|].
  rewrite (IH (a + f x)), (IH (0 + f x)). lra.
Qed.

Lemma fold_sum_cons (f : A -> Q) (x : A) (l : list A) :
  fold_left (fun acc y => acc + f y) (x :: l) 0
  == f x + fold_left (fun acc y => acc + f y) l 0.
Proof. simpl. rewrite fold_sum_shift. lra. Qed.

Lemma fold_sum_nonneg (f : A -> Q) (l : list A) :
  (forall x, In x l -> 0 <= f x) ->
  0 <= fold_left (fun acc x => acc + f x) l 0.
Proof.
  induction l as [|x l IH]; intro H; [simpl; lra|].
  rewrite fold_sum_cons.
  assert (0 <= f x) by (apply H; left; reflexivity).
  assert (0 <= fold_left (fun acc y => acc + f y) l 0)
    by (apply IH; intros y Hy; apply H; right; exact Hy).
  lra.
Qed.

Lemma fold_sum_ge_term (f : A -> Q) (l : list A) (x : A) :
  (forall y, In y l -> 0 <= f y) -> In x l ->
  f x <= fold_left (fun acc y => acc + f y) l 0.
Proof.
  induction l as [|y l IH]; intros H Hx; [destruct Hx|].
  rewrite fold_sum_cons.
  assert (0 <= f y) by (apply H; left; reflexivity).
  assert (R : forall z, In z l -> 0 <= f z) by (intros z Hz; apply H; right; exact Hz).
  destruct Hx as [->|Hx].
  - pose proof (fold_sum_nonneg f l R). lra.
  - pose proof (IH R Hx). lra.
Qed.

Lemma fold_sum_scale (c : Q) (f : A -> Q) (l : list A) :
  fold_left (fun acc x => acc + c * f x) l 0
  == c * fold_left (fun acc x => acc + f x) l 0.
Proof.
  induction l as [|x l IH]; [simpl; lra|].
  rewrite !fold_sum_cons, IH. lra.
Qed.

Lemma fold_sum_plus (f g : A -> Q) (l : list A) :
  fold_left (fun acc x => acc + (f x + g x)) l 0
  == fold_left (fun acc x => acc + f x) l 0
     + fold_left (fun acc x => acc + g x) l 0.
Proof.
  induction l as [|x l IH]; [simpl; lra|].
  rewrite !fold_sum_cons, IH. lra.
Qed.

Lemma fold_sum_const (c : Q) (l : list A) :
  fold_left (fun acc _ => acc + c) l 0 == len l * c.
Proof.
  induction l as [|x l IH]; [unfold len; simpl; ring|].
  rewrite (fold_sum_cons (fun _ => c)), IH. unfold len.
  cbn [length]. rewrite Nat2Z.inj_succ, <- Z.add_1_r, inject_Z_plus. ring.
Qed.

End Sums.

Lemma Qsquare_nonneg (x : Q) : 0 <= x ^ 2.
Proof. simpl. nra. Qed.

Lemma Qsquare_zero (x : Q) : x ^ 2 <= 0 -> x == 0.
Proof. simpl. nra. Qed.

(** An R-squared computed as [1 - ssRes / ssTotal] from sums of squares,
    with or without the clamp at 0, lies between 0 and 1. *)
Lemma rSquared_clamped (ssRes ssTotal : Q) :
  0 <= ssRes -> 0 <= ssTotal ->
  0 <= Qmax 0 (if negb (Qeq_bool ssTotal 0) then 1 - ssRes / ssTotal else 0) <= 1 /\
  0 <= (if negb (Qeq_bool ssTotal 0) then Qmax 0 (1 - ssRes / ssTotal) else 0) <= 1.
Proof.
  intros Hr Ht.
  destruct (Qeq_bool ssTotal 0) eqn:E; cbn [negb].
  - rewrite Q.max_l by lra. split; lra.
  - apply Qeq_bool_neq in E.
    assert (0 < ssTotal) by (destruct (Qlt_le_dec 0 ssTotal) as [L|L]; [exact L|exfalso; apply E; lra]).
    assert (0 <= ssRes / ssTotal) by (apply Qle_shift_div_l; lra).
    assert (B : 0 <= Qmax 0 (1 - ssRes / ssTotal) <= 1)
      by (split; [apply Q.le_max_l|apply Q.max_lub; lra]).
    split; exact B.
Qed.

Lemma linear_rSquared_bounds (xData yData : list Q) :
  0 <= rSquared (computeLinearRegression xData yData) <= 1.
Proof.
  unfold computeLinearRegression.
  destruct (length xData <? 2)%nat; [simpl; lra|].
  cbv zeta. cbn [rSquared].
  apply rSquared_clamped; apply fold_sum_nonneg; intros i _; apply Qsquare_nonneg.
Qed.

Lemma polynomial_rSquared_bounds (xData yData : list Q) :
  0 <= rSquared (computePolynomialRegression xData yData) <= 1.
Proof.
  unfold computePolynomialRegression.
  destruct (length xData <? 2 + 1)%nat; [simpl; lra|].
  cbv zeta.
  destruct (Qltb (Qabs (det3 (normalMatrix xData))) 1e-10); cbn [rSquared].
  - apply linear_rSquared_bounds.
  - apply rSquared_clamped; apply fold_sum_nonneg; intros i _; apply Qsquare_nonneg.
Qed.

(** X1. For all input arrays the R-squared of the linear fit lies between 0
    and 1, also for fewer than 2 points, for equal x values and for constant
    y values. *)
Theorem computeLinearRegression_rSquared_range (xData yData : list Q) :
  0 <= rSquared (computeLinearRegression xData yData) <= 1.
Proof.
  unfold computeLinearRegression.
  destruct (length xData <? 2)%nat eqn:Short.
  - cbn [rSquared]. lra.
  - cbv zeta. cbn [rSquared].
    apply rSquared_clamped.
    + apply fold_sum_nonneg. intros i _. apply Qsquare_nonneg.
    + apply fold_sum_nonneg. intros i _. apply Qsquare_nonneg.
Qed.

(** X2. For all input arrays the R-squared of the polynomial fit lies
    between 0 and 1, on each of its three paths: fewer than 3 points, the
    degenerate determinant, and the Cramer solution. *)
Theorem computePolynomialRegression_rSquared_range (xData yData : list Q) :
  0 <= rSquared (computePolynomialRegression xData yData) <= 1.
Proof.
  unfold computePolynomialRegression.
  destruct (length xData <? 2 + 1)%nat eqn:Short.
  - cbn [rSquared]. lra.
  - cbv zeta.
    destruct (Qltb (Qabs (det3 (normalMatrix xData))) 1e-10) eqn:Degenerate;
      cbn [rSquared].
    + apply linear_rSquared_bounds.
    + apply rSquared_clamped.
      * apply fold_sum_nonneg. intros i _. apply Qsquare_nonneg.
      * apply fold_sum_nonneg. intros i _. apply Qsquare_nonneg.
Qed.

(** ** Regression on an exact line *)

Lemma at1_shift (x : Q) (l : list Q) (n : nat) :
  forall (k : nat) (a : Q),
    fold_left (fun acc i => acc + at1 (x :: l) i) (seq (S k) n) a
    = fold_left (fun acc i => acc + at1 l i) (seq k n) a.
Proof.
  induction n as [|n IH]; intros k a; [reflexivity|].
  simpl. apply IH.
Qed.

(** [reduce] over the elements is the sum over the indices. *)
Lemma fold_indexed (l : list Q) :
  forall a : Q,
    fold_left Qplus l a
    = fold_left (fun acc i => acc + at1 l i) (seq 0 (length l)) a.
Proof.
  induction l as [|x l IH]; intro a; [reflexivity|].
  cbn [length seq fold_left]. rewrite at1_shift. apply IH.
Qed.

Lemma sum_indexed (l : list Q) :
  sum l == fold_left (fun acc i => acc + at1 l i) (seq 0 (length l)) 0.
Proof. unfold sum. rewrite fold_indexed. reflexivity. Qed.

Lemma length_timeIndex (history : list PriceEntry) :
  length (timeIndex history) = length history.
Proof. unfold timeIndex. rewrite length_map, length_seq. reflexivity. Qed.

Lemma length_prices (history : list PriceEntry) :
  length (prices history) = length history.
Proof. unfold prices. apply length_map. Qed.

Lemma at1_timeIndex (history : list PriceEntry) (i : nat) :
  (i < length history)%nat ->
  at1 (timeIndex history) i = inject_Z (Z.of_nat i).
Proof.
  intro H. unfold at1, timeIndex.
  rewrite (nth_indep _ 0 (inject_Z (Z.of_nat 0)))
    by (rewrite length_map, length_seq; exact H).
  rewrite (map_nth (fun i => inject_Z (Z.of_nat i))).
  rewrite seq_nth by exact H. reflexivity.
Qed.

Lemma len_pos {A : Type} (l : list A) : (0 < length l)%nat -> 0 < len l.
Proof.
  intro H. unfold len. change 0 with (inject_Z 0). rewrite <- Zlt_Qlt. lia.
Qed.

(** The mean of prices on a line is the line at the mean index. *)
Lemma onLine_mean (a b : Q) (history : list PriceEntry) :
  (0 < length history)%nat ->
  onLine a b history ->
  sum (prices history) / len (timeIndex history)
  == a * (sum (timeIndex history) / len (timeIndex history)) + b.
Proof.
  intros Hn Hl.
  assert (P : 0 < len (timeIndex history))
    by (apply len_pos; rewrite length_timeIndex; exact Hn).
  rewrite (sum_indexed (prices history)), (sum_indexed (timeIndex history)).
  rewrite length_prices, length_timeIndex.
  rewrite (fold_sum_ext (fun i => at1 (prices history) i)
             (fun i => a * at1 (timeIndex history) i + b)
             (seq 0 (length history)) 0 0); [|reflexivity|].
  - rewrite (fold_sum_plus (fun i => a * at1 (timeIndex history) i) (fun _ => b)).
    rewrite fold_sum_scale, fold_sum_const.
    assert (E : len (seq 0 (length history)) = len (timeIndex history))
      by (unfold len; rewrite length_seq, length_timeIndex; reflexivity).
    rewrite E. field. lra.
  - intros i Hi. apply in_seq in Hi.
    rewrite (at1_timeIndex history i) by lia. apply Hl. lia.
Qed.

(** The indices of a window of two entries or more are not all equal. *)
Lemma timeIndex_spread (history : list PriceEntry) (m : Q) :
  (2 <= length history)%nat ->
  ~ fold_left (fun acc i => acc + (at1 (timeIndex history) i - m) ^ 2)
      (seq 0 (length history)) 0 == 0.
Proof.
  intros Hn Hz.
  assert (N : forall i, In i (seq 0 (length history)) ->
                        0 <= (at1 (timeIndex history) i - m) ^ 2)
    by (intros; apply Qsquare_nonneg).
  assert (T : forall i, (i < length history)%nat ->
                        at1 (timeIndex history) i - m == 0).
  { intros i Hi. apply Qsquare_zero. rewrite <- Hz.
    apply (fold_sum_ge_term (fun i => (at1 (timeIndex history) i - m) ^ 2));
      [exact N|apply in_seq; lia]. }
  pose proof (T 0%nat ltac:(lia)) as T0. pose proof (T 1%nat ltac:(lia)) as T1.
  rewrite at1_timeIndex in T0, T1 by lia.
  change (inject_Z (Z.of_nat 0)) with 0 in T0.
  change (inject_Z (Z.of_nat 1)) with 1 in T1. lra.
Qed.

Lemma Qeq_bool_false (x : Q) : ~ x == 0 -> Qeq_bool x 0 = false.
Proof.
  intro H. destruct (Qeq_bool x 0) eqn:E; [|reflexivity].
  apply Qeq_bool_iff in E. contradiction.
Qed.

Lemma Qeq_bool_true (x : Q) : x == 0 -> Qeq_bool x 0 = true.
Proof. intro H. apply Qeq_bool_iff. exact H. Qed.

(** The linear fit of a window on a line, from the mean of the prices and
    the spread of the indices. *)
Lemma linear_fit_on_line_core (history : list PriceEntry)
    (a b : Q) :
  (2 <= length history)%nat ->
  onLine a b history ->
  sum (prices history) / len (timeIndex history)
  == a * (sum (timeIndex history) / len (timeIndex history)) + b ->
  ~ fold_left (fun acc i =>
                 acc + (at1 (timeIndex history) i
                        - sum (timeIndex history) / len (timeIndex history)) ^ 2)
      (seq 0 (length history)) 0 == 0 ->
  slope (computeLinearRegression (timeIndex history) (prices history)) == a /\
  intercept (computeLinearRegression (timeIndex history) (prices history)) == b /\
  rSquared (computeLinearRegression (timeIndex history) (prices history))
  == (if Qeq_bool a 0 then 0 else 1).
Proof.
  intros Hn Hl Hmean Hspread.
  unfold computeLinearRegression.
  rewrite length_timeIndex.
  replace (length history <? 2)%nat with false by (symmetry; apply Nat.ltb_ge; exact Hn).
  cbv zeta.
  set (xMean := sum (timeIndex history) / len (timeIndex history)) in *.
  set (yMean := sum (prices history) / len (timeIndex history)) in *.
  set (idx := seq 0 (length history)).
  set (den := fold_left (fun acc i => acc + (at1 (timeIndex history) i - xMean) ^ 2) idx 0).
  set (num := fold_left (fun acc i => acc + (at1 (timeIndex history) i - xMean)
                                            * (at1 (prices history) i - yMean)) idx 0).
  set (ssTotal := fold_left (fun acc i => acc + (at1 (prices history) i - yMean) ^ 2) idx 0).
  assert (Hden : ~ den == 0) by exact Hspread.
  rewrite (Qeq_bool_false den Hden). cbn [negb slope intercept rSquared].
  assert (Hy : forall i, In i idx ->
                         at1 (prices history) i - yMean
                         == a * (at1 (timeIndex history) i - xMean)).
  { intros i Hi. apply in_seq in Hi.
    rewrite (Hl i) by lia. rewrite (at1_timeIndex history i) by lia.
    rewrite Hmean. ring. }
  assert (Hnum : num == a * den).
  { unfold num, den. rewrite <- fold_sum_scale.
    apply fold_sum_ext; [reflexivity|].
    intros i Hi. rewrite (Hy i Hi). simpl. ring. }
  assert (Hs : num / den == a) by (rewrite Hnum; field; exact Hden).
  assert (Hi : yMean - num / den * xMean == b) by (rewrite Hs, Hmean; ring).
  assert (Htot : ssTotal == a ^ 2 * den).
  { unfold ssTotal, den. rewrite <- fold_sum_scale.
    apply fold_sum_ext; [reflexivity|].
    intros i Hin. rewrite (Hy i Hin). simpl. ring. }
  split; [exact Hs|]. split; [exact Hi|].
  set (ssRes := fold_left _ idx 0).
  assert (Hres : ssRes == 0).
  { unfold ssRes.
    rewrite (fold_sum_ext _ (fun _ => 0) idx 0 0); [|reflexivity|].
    - rewrite fold_sum_const. ring.
    - intros i Hin. pose proof (Hy i Hin) as E.
      assert (E' : at1 (prices history) i
                   == a * (at1 (timeIndex history) i - xMean) + yMean) by lra.
      rewrite E', Hi, Hs. rewrite Hmean. simpl. ring. }
  destruct (Qeq_bool a 0) eqn:A.
  - apply Qeq_bool_iff in A.
    assert (Z0 : ssTotal == 0) by (rewrite Htot, A; simpl; ring).
    rewrite (Qeq_bool_true ssTotal Z0). cbn [negb]. apply Q.max_l. lra.
  - apply Qeq_bool_neq in A.
    assert (NZ : ~ ssTotal == 0).
    { rewrite Htot. simpl. intro P.
      apply Hden. 
      assert (a * a == 0 \/ den == 0) as [Q0|Q0]
        by (apply Qmult_integral; exact P);
        [|exact Q0].
      exfalso. apply Qmult_integral in Q0. destruct Q0; contradiction. }
    rewrite (Qeq_bool_false ssTotal NZ). cbn [negb].
    rewrite Hres. rewrite Q.max_r; [field; exact NZ|].
    assert (0 / ssTotal == 0) by (field; exact NZ). lra.
Qed.

(** The linear fit of a window on a line. *)
Lemma linear_fit_on_line (history : list PriceEntry) (a b : Q) :
  (2 <= length history)%nat ->
  onLine a b history ->
  slope (computeLinearRegression (timeIndex history) (prices history)) == a /\
  intercept (computeLinearRegression (timeIndex history) (prices history)) == b /\
  rSquared (computeLinearRegression (timeIndex history) (prices history))
  == (if Qeq_bool a 0 then 0 else 1).
Proof.
  intros Hn Hl. apply linear_fit_on_line_core; [exact Hn|exact Hl| |].
  - apply onLine_mean; [lia|exact Hl].
  - apply timeIndex_spread. exact Hn.
Qed.

Lemma lineWindow_onLine (a b : Q) (n : nat) : onLine a b (lineWindow a b n).
Proof.
  intros i Hi. unfold lineWindow in Hi. rewrite length_map, length_seq in Hi.
  unfold at1, prices, lineWindow. rewrite map_map. cbn [price].
  rewrite (nth_indep _ 0 (a * inject_Z (Z.of_nat 0) + b))
    by (rewrite length_map, length_seq; exact Hi).
  rewrite (map_nth (fun i => a * inject_Z (Z.of_nat i) + b)).
  rewrite seq_nth by exact Hi. reflexivity.
Qed.



(** On a flat window the polynomial fit has R-squared 0 as well. *)
Lemma computePolynomialRegression_flat (history : list PriceEntry) (b : Q) :
  (2 <= length history)%nat ->
  onLine 0 b history ->
  rSquared (computePolynomialRegression (timeIndex history) (prices history)) == 0.
Proof.
  intros Hn Hl.
  pose proof (onLine_mean 0 b history ltac:(lia) Hl) as Hmean.
  unfold computePolynomialRegression.
  destruct (length (timeIndex history) <? 2 + 1)%nat; [reflexivity|].
  cbv zeta.
  destruct (Qltb (Qabs (det3 (normalMatrix (timeIndex history)))) 1e-10);
    cbn [rSquared].
  - destruct (linear_fit_on_line history 0 b Hn Hl) as [_ [_ R]].
    exact R.
  - match goal with
    | |- (if negb (Qeq_bool ?t 0) then _ else _) == 0 =>
      assert (Z0 : t == 0); [|rewrite (Qeq_bool_true t Z0); reflexivity]
    end.
    rewrite length_timeIndex.
    rewrite (fold_sum_ext _ (fun _ => 0) (seq 0 (length history)) 0 0);
      [rewrite fold_sum_const; ring|reflexivity|].
    intros i Hi. apply in_seq in Hi.
    rewrite (Hl i) by lia. rewrite Hmean. simpl. ring.
Qed.

Lemma slopeTrend_proper (s t : Q) : s == t -> slopeTrend s = slopeTrend t.
Proof.
  intro H. unfold slopeTrend, Qgtb, Qltb.
  assert (E1 : (0.01 ?= s) = (0.01 ?= t))
    by (apply Qcompare_comp; [reflexivity|exact H]).
  assert (E2 : (s ?= -0.01) = (t ?= -0.01))
    by (apply Qcompare_comp; [exact H|reflexivity]).
  rewrite E1, E2. reflexivity.
Qed.

(** The trend label of a whole slope. *)
Lemma slopeTrend_integer (a : Z) :
  slopeTrend (inject_Z a)
  = (if (0 <? a)%Z then upward else if (a <? 0)%Z then downward else stable).
Proof.
  destruct (slopeTrend_spec (inject_Z a)) as [U [D _]].
  destruct (Z.ltb_spec 0 a) as [P|P].
  - apply U.
    assert (H : inject_Z 1 <= inject_Z a) by (rewrite <- Zle_Qle; lia).
    change (inject_Z 1) with 1 in H. lra.
  - destruct (Z.ltb_spec a 0) as [N|N].
    + apply D.
      assert (H : inject_Z a <= inject_Z (-1)) by (rewrite <- Zle_Qle; lia).
      change (inject_Z (-1)) with (-1 # 1) in H. lra.
    + replace a with 0%Z by lia. reflexivity.
Qed.

Lemma Qeq_bool_integer (a : Z) :
  Qeq_bool (inject_Z a) 0 = (a =? 0)%Z.
Proof.
  destruct (Z.eqb_spec a 0) as [E|E].
  - subst. reflexivity.
  - apply Qeq_bool_false. intro H.
    change 0 with (inject_Z 0) in H. rewrite inject_Z_injective in H.
    contradiction.
Qed.

(** The model fitted to a window on a line. *)
Lemma fit_on_line (history : list PriceEntry) (now : Z) (a b : Q) :
  (2 <= length history)%nat ->
  onLine a b history ->
  type (fitModel history now) = linear /\
  slope (fields (fitModel history now)) == a /\
  intercept (fields (fitModel history now)) == b /\
  trend (fitModel history now) = slopeTrend a.
Proof.
  intros Hn Hl.
  destruct (linear_fit_on_line history a b Hn Hl) as [S [I R]].
  destruct (fitModel_selected history now) as [[G _]|[_ [T [F Tr]]]].
  - exfalso. apply Qltb_lt in G.
    destruct (5 <=? length history)%nat; [|lra].
    rewrite R in G.
    destruct (Qeq_bool a 0) eqn:A.
    + apply Qeq_bool_iff in A.
      assert (Hl0 : onLine 0 b history)
        by (intros i Hi; rewrite (Hl i Hi), A; reflexivity).
      rewrite (computePolynomialRegression_flat history b Hn Hl0) in G. lra.
    + pose proof (polynomial_rSquared_bounds
                    (timeIndex history) (prices history)) as B.
      lra.
  - rewrite T, F, Tr. repeat split; try assumption.
    apply slopeTrend_proper. exact S.
Qed.

(** X5. On a window of 2 to 50 entries whose prices are exactly
    [a * i + b] for whole numbers [a] and [b] of at most a million in
    absolute value (so that the program's doubles carry every intermediate
    value of the linear fit exactly), the fitted model is the linear one, with
    slope [a] and intercept [b], R-squared 1 (0 on a flat line), and its
    trend is the label of [a]: the polynomial fit can never beat an exact
    line by the margin of 0.1. *)
Theorem fitModel_exact_line (history : list PriceEntry) (now : Z) (a b : Z) :
  (2 <= length history <= 50)%nat ->
  (Z.abs a <= 1000000)%Z -> (Z.abs b <= 1000000)%Z ->
  onLine (inject_Z a) (inject_Z b) history ->
  type (fitModel history now) = linear /\
  slope (fields (fitModel history now)) == inject_Z a /\
  intercept (fields (fitModel history now)) == inject_Z b /\
  rSquared (fields (fitModel history now)) == (if (a =? 0)%Z then 0 else 1) /\
  trend (fitModel history now)
  = (if (0 <? a)%Z then upward else if (a <? 0)%Z then downward else stable).
Proof.
  intros [Hn _] _ _ Hl.
  destruct (fit_on_line history now (inject_Z a) (inject_Z b) Hn Hl)
    as [T [S [I Tr]]].
  split; [exact T|]. split; [exact S|]. split; [exact I|]. split.
  - destruct (fitModel_selected history now) as [[_ [T' _]]|[_ [_ [F _]]]].
    + rewrite T in T'. discriminate T'.
    + rewrite F.
      destruct (linear_fit_on_line history (inject_Z a) (inject_Z b) Hn Hl)
        as [_ [_ R]].
      rewrite R, Qeq_bool_integer. reflexivity.
  - rewrite Tr. apply slopeTrend_integer.
Qed.

Lemma fitModel_exact_line_witness :
  type (fitModel (lineWindow (-3) 90 6) 0) = linear /\
  trend (fitModel (lineWindow (-3) 90 6) 0) = downward.
Proof.
  destruct (fitModel_exact_line (lineWindow (-3) 90 6) 0 (-3) 90)
    as [T [_ [_ [_ Tr]]]].
  - simpl. lia.
  - simpl. lia.
  - simpl. lia.
  - apply (lineWindow_onLine (-3) 90 6).
  - split; [exact T|exact Tr].
Defined.

(** ** The determinant on window indices *)

Lemma nondegenerateUpTo50_true : nondegenerateUpTo50 = true.
Proof. vm_compute. reflexivity. Qed.

(** X4. On the indices of a window of 3 to 50 entries (every window that
    the fit can see in a reachable state) the determinant of the normal
    equations is never below the threshold of 1e-10, so the polynomial fit
    never falls back to the linear coefficients there: its coefficients are
    the Cramer quotients. *)
Theorem computePolynomialRegression_never_degenerate
    (history : list PriceEntry) :
  (3 <= length history <= 50)%nat ->
  1e-10 <= Qabs (det3 (normalMatrix (timeIndex history))) /\
  coefficients (computePolynomialRegression (timeIndex history) (prices history))
  = cramer (normalMatrix (timeIndex history))
           (normalVector (timeIndex history) (prices history))
           (det3 (normalMatrix (timeIndex history))).
Proof.
  intro Hn.
  assert (D : Qltb (Qabs (det3 (normalMatrix (timeIndex history)))) 1e-10 = false).
  { pose proof nondegenerateUpTo50_true as H.
    unfold nondegenerateUpTo50 in H. rewrite forallb_forall in H.
    specialize (H (length history)).
    apply negb_true_iff. apply H. apply in_seq. lia. }
  split; [apply Qltb_ge; exact D|].
  unfold computePolynomialRegression. rewrite length_timeIndex.
  replace (length history <? 2 + 1)%nat with false
    by (symmetry; apply Nat.ltb_ge; simpl; lia).
  cbv zeta. rewrite D. reflexivity.
Qed.

Lemma computePolynomialRegression_never_degenerate_witness :
  (3 <= length (priceHistory valley) <= 50)%nat /\
  1e-10 <= Qabs (det3 (normalMatrix (timeIndex (priceHistory valley)))).
Proof.
  split; [vm_compute; lia|].
  apply (computePolynomialRegression_never_degenerate (priceHistory valley)).
  vm_compute. lia.
Defined.

(** ** Invariants of the window *)

Lemma slice_last_snoc {A : Type} (n : nat) (l : list A) (e : A) :
  (0 < n)%nat ->
  slice_last n (l ++ [e]) = skipn (length l + 1 - n) l ++ [e].
Proof.
  intro Hn. unfold slice_last. rewrite length_app. cbn [length].
  rewrite skipn_app.
  replace (length l + 1 - n - length l)%nat with 0%nat by lia.
  reflexivity.
Qed.

Lemma lastEntry_slice_last {A : Type} (n : nat) (l : list A) (e : A) :
  (0 < n)%nat -> lastEntry (slice_last n (l ++ [e])) = Some e.
Proof.
  intro Hn. rewrite slice_last_snoc by exact Hn. apply lastEntry_app.
Qed.

Lemma validPrice_positive (marketData : option MarketData) (p : Q) :
  validPrice marketData = Some p -> 0 < p.
Proof.
  unfold validPrice.
  destruct (currentPriceOf marketData) as [q|]; [|discriminate].
  destruct (truthy q && Qgtb q 0) eqn:E; [|discriminate].
  intro H. injection H as <-.
  apply andb_true_iff in E. destruct E as [_ E]. apply Qltb_lt. exact E.
Qed.

Lemma Forall_skipn {A : Type} (P : A -> Prop) (k : nat) (l : list A) :
  Forall P l -> Forall P (skipn k l).
Proof.
  intro H. rewrite <- (firstn_skipn k l) in H.
  apply Forall_app in H. apply H.
Qed.

Lemma Forall_slice_snoc {A : Type} (P : A -> Prop) (l : list A) (e : A) :
  Forall P l -> P e -> Forall P (slice_last 50 (l ++ [e])).
Proof.
  intros Hl He. rewrite slice_last_snoc by lia.
  apply Forall_app. split; [apply Forall_skipn; exact Hl|].
  constructor; [exact He|constructor].
Qed.

(** Every price stored by the two price effects is positive. *)
Lemma reachable_prices_positive (st : State) :
  Reachable st -> Forall (fun e => 0 < price e) (priceHistory st).
Proof.
  induction 1 as [|marketData now nowHours st R IH|marketData now st R IH].
  - constructor.
  - unfold record.
    destruct (validPrice marketData) as [p|] eqn:V; [|exact IH].
    destruct (isDuplicate (priceHistory st) p now); [exact IH|].
    cbn [priceHistory]. apply Forall_slice_snoc; [exact IH|].
    cbn [price newEntry]. apply (validPrice_positive marketData). exact V.
  - unfold appendOnPriceChange.
    destruct (validPrice marketData) as [p|] eqn:V; [|exact IH].
    apply validPrice_positive in V.
    assert (S : Forall (fun e => 0 < price e)
                  (priceHistory st
                   ++ [{| price := p; timestamp := now; hour := None;
                          demand := None; renewablePercentage := None |}])).
    { apply Forall_app. split; [exact IH|]. constructor; [exact V|constructor]. }
    destruct (lastEntry (priceHistory st)) as [e|];
      [destruct (Qltb _ _); [exact IH|]|];
      cbn [priceHistory];
      match goal with
      | |- context [(50 <? ?n)%nat] => destruct (50 <? n)%nat
      end;
      try exact S; unfold slice_last; apply Forall_skipn; exact S.
Qed.

Lemma noAdjacentDuplicates_snoc (l : list PriceEntry) (e : PriceEntry) :
  noAdjacentDuplicates l ->
  (forall e', lastEntry l = Some e' ->
              ~ (Qabs (price e' - price e) < 0.01 /\
                 (timestamp e - timestamp e' < 30000)%Z)) ->
  noAdjacentDuplicates (l ++ [e]).
Proof.
  induction l as [|x l IH]; intros Hl Hlast; [simpl; split; exact I|].
  destruct l as [|y l].
  - simpl. split; [|split; exact I]. apply Hlast. reflexivity.
  - destruct Hl as [Hxy Hrest].
    change ((x :: y :: l) ++ [e]) with (x :: ((y :: l) ++ [e])).
    split; [exact Hxy|].
    apply IH; [exact Hrest|].
    intros e' He'. apply Hlast.
    unfold lastEntry in *. cbn [length] in *.
    replace (S (S (length l)) - 1)%nat with (S (S (length l) - 1)) by lia.
    exact He'.
Qed.

Lemma noAdjacentDuplicates_skipn (k : nat) :
  forall l : list PriceEntry,
    noAdjacentDuplicates l -> noAdjacentDuplicates (skipn k l).
Proof.
  induction k as [|k IH]; intros l H; [exact H|].
  destruct l as [|x l]; [exact H|].
  simpl skipn. apply IH. destruct H as [_ H]. exact H.
Qed.

Lemma recorded_no_adjacent_duplicates (st : State) :
  Recorded st -> noAdjacentDuplicates (priceHistory st).
Proof.
  induction 1 as [|marketData now nowHours st R IH]; [exact I|].
  unfold record.
  destruct (validPrice marketData) as [p|]; [|exact IH].
  destruct (isDuplicate (priceHistory st) p now) eqn:D; [exact IH|].
  cbn [priceHistory]. rewrite slice_last_snoc by lia.
  replace (skipn (length (priceHistory st) + 1 - 50) (priceHistory st)
           ++ [newEntry marketData p now nowHours])
    with (skipn (length (priceHistory st) + 1 - 50)
                (priceHistory st ++ [newEntry marketData p now nowHours]))
    by (rewrite skipn_app;
        replace (length (priceHistory st) + 1 - 50 - length (priceHistory st))%nat
          with 0%nat by lia; reflexivity).
  apply noAdjacentDuplicates_skipn. apply noAdjacentDuplicates_snoc; [exact IH|].
  intros e' He' Hdup. cbn [price timestamp newEntry] in Hdup.
  assert (T : isDuplicate (priceHistory st) p now = true)
    by (apply isDuplicate_spec; exists e'; split; [exact He'|exact Hdup]).
  congruence.
Qed.

(** The window and the model of a state built by [record] alone. *)
Lemma recorded_in_sync (st : State) :
  Recorded st ->
  (length (priceHistory st) <= 50)%nat /\
  match regressionModel st with
  | None => (length (priceHistory st) < 3)%nat
  | Some m =>
    (3 <= length (priceHistory st))%nat /\
    exists e, lastEntry (priceHistory st) = Some e /\
              m = fitModel (priceHistory st) (timestamp e)
  end.
Proof.
  induction 1 as [|marketData now nowHours st R [IHl IHm]]; [simpl; lia|].
  split; [apply record_bounded; exact IHl|].
  unfold record.
  destruct (validPrice marketData) as [p|]; [|exact IHm].
  destruct (isDuplicate (priceHistory st) p now); [exact IHm|].
  cbn [priceHistory regressionModel].
  set (newHistory := slice_last 50 (priceHistory st ++ [newEntry marketData p now nowHours])).
  assert (L : length newHistory = Nat.min (length (priceHistory st) + 1) 50).
  { unfold newHistory. rewrite slice_last_length, length_app. reflexivity. }
  destruct (3 <=? length newHistory)%nat eqn:E.
  - apply Nat.leb_le in E. split; [exact E|].
    exists (newEntry marketData p now nowHours).
    split; [apply lastEntry_slice_last; lia|reflexivity].
  - apply Nat.leb_gt in E.
    destruct (regressionModel st) as [m|]; [destruct IHm as [G _]; lia|exact E].
Qed.

(** ** The two price effects in sequence *)

Lemma append_changes_window (window : list PriceEntry) (entry : PriceEntry)
    (b : bool) :
  lastEntry window <> Some entry ->
  (if b then slice_last 50 (window ++ [entry]) else window ++ [entry]) <> window.
Proof.
  intros L E. destruct b.
  - apply slice_last_fixpoint in E; [contradiction|lia].
  - apply (f_equal (@length PriceEntry)) in E.
    rewrite length_app in E. simpl in E. lia.
Qed.

(** What the first price effect does with a valid price: it skips it, or it
    appends an entry that ends the new window and leaves the model alone. *)
Lemma appendOnPriceChange_cases (marketData : option MarketData) (now : Z)
    (st : State) (p : Q) :
  validPrice marketData = Some p ->
  (exists e, lastEntry (priceHistory st) = Some e /\
             Qabs (price e - p) < 0.01 /\
             appendOnPriceChange marketData now st = st) \/
  (appendOnPriceChange marketData now st <> st /\
   (exists e, lastEntry (priceHistory (appendOnPriceChange marketData now st))
              = Some e /\ price e = p /\ timestamp e = now) /\
   regressionModel (appendOnPriceChange marketData now st) = regressionModel st).
Proof.
  intro V. unfold appendOnPriceChange. rewrite V. cbn [price].
  set (entry := {| price := p; timestamp := now; hour := None; demand := None;
                   renewablePercentage := None |}).
  assert (A : forall (b : bool),
             lastEntry (if b then slice_last 50 (priceHistory st ++ [entry])
                        else priceHistory st ++ [entry]) = Some entry)
    by (intros [|]; [apply lastEntry_slice_last; lia|apply lastEntry_app]).
  assert (R : lastEntry (priceHistory st) <> Some entry ->
              forall b : bool,
                {| priceHistory :=
                     if b then slice_last 50 (priceHistory st ++ [entry])
                     else priceHistory st ++ [entry];
                   regressionModel := regressionModel st |} <> st /\
                (exists e,
                    lastEntry (if b then slice_last 50 (priceHistory st ++ [entry])
                               else priceHistory st ++ [entry]) = Some e /\
                    price e = p /\ timestamp e = now) /\
                regressionModel st = regressionModel st).
  { intros L b. split; [|split; [|reflexivity]].
    - intro E. apply (f_equal priceHistory) in E. cbn [priceHistory] in E.
      apply (append_changes_window _ _ b L E).
    - exists entry. split; [apply A|split; reflexivity]. }
  destruct (lastEntry (priceHistory st)) as [e|] eqn:L.
  - destruct (Qltb (Qabs (price e - p)) 0.01) eqn:D.
    + left. exists e. split; [reflexivity|]. split; [apply Qltb_lt; exact D|reflexivity].
    + right. apply R. intro E. injection E as ->. cbn [price entry] in D.
      apply Qltb_ge in D.
      assert (Qabs (p - p) == 0) by (rewrite (Qabs_wd (p - p) 0) by ring; reflexivity).
      lra.
  - right. apply R. discriminate.
Qed.

(** Once the first price effect has appended a price, the second one,
    running less than 30 seconds later on the same price, finds its own
    duplicate. *)
Lemma record_after_append (marketData : option MarketData)
    (now now' nowHours : Z) (st : State) (p : Q) :
  validPrice marketData = Some p ->
  (now' - now < 30000)%Z ->
  appendOnPriceChange marketData now st <> st ->
  record marketData now' nowHours (appendOnPriceChange marketData now st)
  = appendOnPriceChange marketData now st.
Proof.
  intros V T C.
  destruct (appendOnPriceChange_cases marketData now st p V)
    as [[e [_ [_ E]]]|[_ [[e [L [P Ts]]] _]]]; [contradiction|].
  unfold record. rewrite V.
  replace (isDuplicate (priceHistory (appendOnPriceChange marketData now st)) p now')
    with true; [reflexivity|].
  symmetry. apply isDuplicate_spec. exists e. split; [exact L|].
  rewrite P, Ts. split; [|exact T].
  assert (Qabs (p - p) == 0) by (rewrite (Qabs_wd (p - p) 0) by ring; reflexivity).
  lra.
Qed.

(** X6. When both price effects run on the same positive price, the second
    less than 30 seconds after the first, and the first one appends the
    price, the second one changes nothing: the price is stored once and the
    regression model is not refitted. *)
Theorem price_effects_append_once (marketData : option MarketData)
    (now now' nowHours : Z) (st : State) (p : Q) :
  validPrice marketData = Some p ->
  (now' - now < 30000)%Z ->
  appendOnPriceChange marketData now st <> st ->
  record marketData now' nowHours (appendOnPriceChange marketData now st)
  = appendOnPriceChange marketData now st /\
  regressionModel
    (record marketData now' nowHours (appendOnPriceChange marketData now st))
  = regressionModel st.
Proof.
  intros V T C.
  rewrite (record_after_append marketData now now' nowHours st p V T C).
  split; [reflexivity|].
  destruct (appendOnPriceChange_cases marketData now st p V)
    as [[e [_ [_ E]]]|[_ [_ M]]]; [contradiction|exact M].
Qed.

Lemma price_effects_append_once_witness :
  priceHistory (record (priceOnly 45.0) 5 14
                  (appendOnPriceChange (priceOnly 45.0) 0 initialState))
  = [{| price := 45.0; timestamp := 0; hour := None; demand := None;
        renewablePercentage := None |}].
Proof.
  rewrite (proj1 (price_effects_append_once (priceOnly 45.0) 0 5 14
                    initialState 45.0 eq_refl ltac:(lia)
                    ltac:(vm_compute; discriminate))).
  reflexivity.
Defined.

(** X7. When both price effects run on the same positive price, the second
    less than 30 seconds after the first, the regression model changes only
    if the window ends with an entry whose price is within 0.01 of the new
    one and which is 30 seconds old or more: a price that moved by 0.01 or
    more is stored without any refit. *)
Theorem price_effects_refit_only_on_repeat (marketData : option MarketData)
    (now now' nowHours : Z) (st : State) (p : Q) :
  validPrice marketData = Some p ->
  (now' - now < 30000)%Z ->
  regressionModel
    (record marketData now' nowHours (appendOnPriceChange marketData now st))
  <> regressionModel st ->
  exists e, lastEntry (priceHistory st) = Some e /\
            Qabs (price e - p) < 0.01 /\
            (30000 <= now' - timestamp e)%Z.
Proof.
  intros V T C.
  destruct (appendOnPriceChange_cases marketData now st p V)
    as [[e [L [P E]]]|[N [_ M]]].
  - exists e. split; [exact L|]. split; [exact P|].
    rewrite E in C. unfold record in C. rewrite V in C.
    destruct (isDuplicate (priceHistory st) p now') eqn:D; [contradiction|].
    unfold isDuplicate in D. rewrite L in D.
    apply Qltb_lt in P. rewrite P in D. cbn [andb] in D.
    apply Z.ltb_ge in D. exact D.
  - exfalso. apply C.
    rewrite (record_after_append marketData now now' nowHours st p V T N).
    exact M.
Qed.

Lemma price_effects_refit_only_on_repeat_witness :
  exists e, lastEntry (priceHistory (windowOf [40; 41])) = Some e /\
            Qabs (price e - 41) < 0.01 /\
            (30000 <= 120000 - timestamp e)%Z.
Proof.
  apply (price_effects_refit_only_on_repeat (priceOnly 41) 120000 120000 14
           (windowOf [40; 41]) 41).
  - reflexivity.
  - lia.
  - vm_compute. discriminate.
Defined.

(** ** Reachable states *)

Lemma recordAll_recorded (samples : list Sample) :
  forall st : State, Recorded st -> Recorded (recordAll samples st).
Proof.
  induction samples as [|s rest IH]; intros st R; [exact R|].
  simpl. apply IH. apply recorded_step. exact R.
Qed.

Lemma recorded_reachable (st : State) : Recorded st -> Reachable st.
Proof.
  induction 1; [apply reach_initial|apply reach_record; assumption].
Qed.

Lemma windowOf_recorded (ps : list Q) : Recorded (windowOf ps).
Proof. apply recordAll_recorded. apply recorded_initial. Qed.

(** X8. In every state built from the initial one by the two price
    effects, the window has at most 50 entries, every stored price is
    positive, and the model, when there is one, has the properties that
    [predictPriceWithRegression] reads for its type. *)
Theorem reachable_window_invariant (st : State) :
  Reachable st ->
  (length (priceHistory st) <= 50)%nat /\
  Forall (fun e => 0 < price e) (priceHistory st) /\
  (forall m, regressionModel st = Some m -> wellFormed m).
Proof.
  intro R. destruct (reachable_invariant st R) as [L W].
  split; [exact L|]. split; [apply reachable_prices_positive; exact R|exact W].
Qed.

Lemma reachable_window_invariant_witness :
  (length (priceHistory valley) <= 50)%nat /\
  Forall (fun e => 0 < price e) (priceHistory valley) /\
  (forall m, regressionModel valley = Some m -> wellFormed m).
Proof.
  apply (reachable_window_invariant valley).
  apply recorded_reachable. apply windowOf_recorded.
Defined.

Lemma fitModel_meta (newHistory : list PriceEntry) (now : Z) :
  dataPoints (fitModel newHistory now) = length newHistory /\
  lastUpdate (fitModel newHistory now) = now.
Proof.
  unfold fitModel. destruct (Qgtb _ _); split; reflexivity.
Qed.

(** X9. In every state built by [record] alone the model is in step with
    the window: there is none while the window has fewer than 3 entries, and
    otherwise it is the fit of the current window, made when the last entry
    was recorded. *)
Theorem recorded_model_in_sync (st : State) :
  Recorded st ->
  match regressionModel st with
  | None => (length (priceHistory st) < 3)%nat
  | Some m =>
    (3 <= length (priceHistory st))%nat /\
    dataPoints m = length (priceHistory st) /\
    exists e, lastEntry (priceHistory st) = Some e /\
              lastUpdate m = timestamp e /\
              m = fitModel (priceHistory st) (timestamp e)
  end.
Proof.
  intro R. destruct (recorded_in_sync st R) as [_ H].
  destruct (regressionModel st) as [m|]; [|exact H].
  destruct H as [L [e [He Hm]]].
  split; [exact L|]. split; [rewrite Hm; apply fitModel_meta|].
  exists e. split; [exact He|]. split; [rewrite Hm; apply fitModel_meta|exact Hm].
Qed.

Lemma recorded_model_in_sync_witness :
  match regressionModel ramp with
  | None => (length (priceHistory ramp) < 3)%nat
  | Some m =>
    (3 <= length (priceHistory ramp))%nat /\
    dataPoints m = length (priceHistory ramp) /\
    exists e, lastEntry (priceHistory ramp) = Some e /\
              lastUpdate m = timestamp e /\
              m = fitModel (priceHistory ramp) (timestamp e)
  end.
Proof.
  apply (recorded_model_in_sync ramp). apply windowOf_recorded.
Defined.

(** The first price effect breaks that: it appends without refitting. *)
Example append_leaves_model_stale :
  let st := appendOnPriceChange (priceOnly 60) 300000 ramp in
  length (priceHistory st) = 6%nat /\
  option_map dataPoints (regressionModel st) = Some 5%nat.
Proof. vm_compute. split; reflexivity. Qed.

(** X10. In every state built by [record] alone no two neighbouring
    entries of the window are both less than 30 seconds and less than 0.01
    in price apart. *)
Theorem recorded_window_has_no_duplicates (st : State) :
  Recorded st ->
  forall (i : nat) (e e' : PriceEntry),
    nth_error (priceHistory st) i = Some e ->
    nth_error (priceHistory st) (S i) = Some e' ->
    ~ (Qabs (price e - price e') < 0.01 /\
       (timestamp e' - timestamp e < 30000)%Z).
Proof.
  intro R. pose proof (recorded_no_adjacent_duplicates st R) as H.
  revert H. generalize (priceHistory st) as window.
  induction window as [|x window IH]; intros H i e e' Hi Hi'.
  - destruct i; discriminate Hi.
  - destruct H as [Hx Hrest]. destruct i as [|i].
    + destruct window as [|y window]; [discriminate Hi'|].
      simpl in Hi, Hi'. injection Hi as <-. injection Hi' as <-. exact Hx.
    + apply (IH Hrest i e e'); [exact Hi|exact Hi'].
Qed.

Lemma recorded_window_has_no_duplicates_witness :
  ~ (Qabs (price (newEntry (priceOnly 45.0) 45.0 0 14)
           - price (newEntry (priceOnly 45.0) 45.0 31000 14)) < 0.01 /\
     (timestamp (newEntry (priceOnly 45.0) 45.0 31000 14)
      - timestamp (newEntry (priceOnly 45.0) 45.0 0 14) < 30000)%Z).
Proof.
  apply (recorded_window_has_no_duplicates
           (recordAll [sampleAt 45.0 0; sampleAt 45.0 1000; sampleAt 45.0 31000]
                      initialState)
           (recordAll_recorded _ initialState recorded_initial)
           0%nat).
  - vm_compute. reflexivity.
  - vm_compute. reflexivity.
Defined.

(** ** Predictions on a line and at long range *)

(** X11. With a model fitted to the current window, 3 to 50 entries
    exactly on the line [a * i + b] for whole numbers [a] and [b] of at most
    a million in absolute value, and a target hour that is neither a peak nor
    a night hour, the prediction extrapolates the line: the method is linear,
    the trend is the label of [a], and the price is
    [a * (n - 1 + hoursAhead) + b] plus the noise term, held at 10 from
    below. *)
Theorem predict_on_exact_line (Math_sqrt : Q -> Q) (st : State) (now : Z)
    (a b : Z) (marketData : option MarketData) (nowHours : Z)
    (random : nat -> Q) (hoursAhead : Z) :
  regressionModel st = Some (fitModel (priceHistory st) now) ->
  (3 <= length (priceHistory st) <= 50)%nat ->
  (Z.abs a <= 1000000)%Z -> (Z.abs b <= 1000000)%Z ->
  onLine (inject_Z a) (inject_Z b) (priceHistory st) ->
  isPeakHour (Z.rem (nowHours + hoursAhead) 24) = false ->
  isNightHour (Z.rem (nowHours + hoursAhead) 24) = false ->
  let p := predictPriceWithRegression Math_sqrt st marketData nowHours random
             hoursAhead in
  method p = ofModel linear /\
  p_trend p
  = Some (if (0 <? a)%Z then upward else if (a <? 0)%Z then downward else stable) /\
  predictedPrice p
  == Qmax 10 (inject_Z a * (len (priceHistory st) - 1 + inject_Z hoursAhead)
              + inject_Z b
              + (random 0%nat - 0.5)
                * volatilityOf Math_sqrt (priceHistory st) * 0.3).
Proof.
  intros M [L _] _ _ Hl Pk Nt p. subst p.
  destruct (fit_on_line (priceHistory st) now (inject_Z a) (inject_Z b)
              ltac:(lia) Hl) as [T [S [I Tr]]].
  unfold predictPriceWithRegression. rewrite M.
  apply Nat.ltb_ge in L. rewrite L. rewrite Pk, Nt. rewrite T, Tr.
  cbn [predictedPrice method p_trend].
  split; [reflexivity|]. split; [rewrite slopeTrend_integer; reflexivity|].
  rewrite S, I. reflexivity.
Qed.

Lemma predict_on_exact_line_witness :
  method
    (predictPriceWithRegression Qsqrt
       {| priceHistory := lineWindow 2 40 5;
          regressionModel := Some (fitModel (lineWindow 2 40 5) 0) |}
       None 13 drawsHalf 1)
  = ofModel linear.
Proof.
  apply (predict_on_exact_line Qsqrt
           {| priceHistory := lineWindow 2 40 5;
              regressionModel := Some (fitModel (lineWindow 2 40 5) 0) |}
           0 2 40 None 13 drawsHalf 1).
  - reflexivity.
  - simpl. lia.
  - simpl. lia.
  - simpl. lia.
  - apply (lineWindow_onLine 2 40 5).
  - reflexivity.
  - reflexivity.
Defined.

Lemma confidenceAt_upper (r2 : Q) (currentHour hoursAhead : Z) :
  confidenceAt r2 currentHour hoursAhead
  <= Qmax 25 (100 - inject_Z hoursAhead * 5).
Proof.
  unfold confidenceAt. apply Qmax_mono_r.
  assert (B := Qmin_le_l 95 (r2 * 100)).
  destruct (isPeakHour currentHour); [|destruct (isNightHour currentHour)]; lra.
Qed.

(** X12. On the fitted path the confidence is at most
    [max(25, 100 - 5 * hoursAhead)]; from 15 steps ahead on it is exactly
    25, whatever the fit and the hour. *)
Theorem predict_confidence_long_range (Math_sqrt : Q -> Q) (st : State)
    (model : RegressionModel) (marketData : option MarketData) (nowHours : Z)
    (random : nat -> Q) (hoursAhead : Z) :
  regressionModel st = Some model ->
  (3 <= length (priceHistory st))%nat ->
  confidence (predictPriceWithRegression Math_sqrt st marketData nowHours
                random hoursAhead)
  <= Qmax 25 (100 - inject_Z hoursAhead * 5) /\
  ((15 <= hoursAhead)%Z ->
   confidence (predictPriceWithRegression Math_sqrt st marketData nowHours
                 random hoursAhead) == 25).
Proof.
  intros M L.
  rewrite (predict_fitted_confidence Math_sqrt st model) by assumption.
  split; [apply confidenceAt_upper|].
  intro K.
  assert (U := confidenceAt_upper (rSquared (fields model))
                 (Z.rem (nowHours + hoursAhead) 24) hoursAhead).
  assert (F : 25 <= confidenceAt (rSquared (fields model))
                      (Z.rem (nowHours + hoursAhead) 24) hoursAhead)
    by (unfold confidenceAt; apply Qmax_ge_l).
  assert (K' : 15 <= inject_Z hoursAhead)
    by (change 15 with (inject_Z 15); rewrite <- Zle_Qle; exact K).
  rewrite Q.max_l in U by lra. lra.
Qed.

Lemma predict_confidence_long_range_witness :
  confidence (predictPriceWithRegression Qsqrt valley (priceOnly 5) 9
                drawsHalf 20) == 25.
Proof.
  eapply (proj2 (predict_confidence_long_range Qsqrt valley _ (priceOnly 5) 9
                   drawsHalf 20 _ _)).
  lia.
  Unshelve.
  - exact (fitModel (priceHistory valley) 240000).
  - vm_compute. reflexivity.
  - vm_compute. lia.
Defined.

(** ** [predictPriceMovement] *)

(** The steps ahead that [predictPriceMovement] asks for, [hoursAhead || 1]:
    between 1 and 23, and leading from the current hour to the requested
    hour unless the two are equal. *)
Lemma hoursAheadOf_spec (hour nowHours : Z) :
  (0 <= hour < 24)%Z -> (0 <= nowHours < 24)%Z ->
  let k := if (hoursAheadOf hour nowHours =? 0)%Z then 1%Z
           else hoursAheadOf hour nowHours in
  (1 <= k <= 23)%Z /\
  (hour <> nowHours -> Z.rem (nowHours + k) 24 = hour) /\
  (hour = nowHours -> k = 1%Z).
Proof.
  intros Hh Hn. unfold hoursAheadOf.
  rewrite Z.rem_mod_nonneg by lia.
  destruct (Z.eqb_spec ((hour - nowHours + 24) mod 24) 0) as [E|E]; cbv zeta.
  - assert (hour = nowHours)
      by (revert E; Z.div_mod_to_equations; lia).
    repeat split; try lia.
  - repeat split.
    + revert E. Z.div_mod_to_equations. lia.
    + revert E. Z.div_mod_to_equations. lia.
    + intros _. rewrite Z.rem_mod_nonneg by (Z.div_mod_to_equations; lia).
      Z.div_mod_to_equations. lia.
    + intro Eq. subst hour. exfalso. apply E.
      replace (nowHours - nowHours + 24)%Z with 24%Z by lia. reflexivity.
Qed.

Lemma predictPriceMovement_regression (Math_sqrt : Q -> Q) (st : State)
    (model : RegressionModel) (marketData : option MarketData)
    (conditions : MarketConditions) (nowHours : Z) (random : nat -> Q)
    (hour : Z) (basePrice : Q) :
  regressionModel st = Some model ->
  (3 <= length (priceHistory st))%nat ->
  let k := if (hoursAheadOf hour nowHours =? 0)%Z then 1%Z
           else hoursAheadOf hour nowHours in
  let p := predictPriceWithRegression Math_sqrt st marketData nowHours random k in
  predictPriceMovement Math_sqrt st marketData conditions nowHours random hour
    basePrice
  = {| mv_predictedPrice := predictedPrice p;
       mv_confidence := confidence p;
       mv_method := ML (method p);
       modelQuality := p_rSquared p;
       mv_trend := p_trend p;
       mv_volatility := volatility p |}.
Proof.
  intros M L. unfold predictPriceMovement. rewrite M.
  apply Nat.leb_le in L. rewrite L. reflexivity.
Qed.

(** X13. With a model and at least 3 entries, [predictPriceMovement] for an
    hour of the day predicts with the regression between 1 and 23 steps
    ahead, so its confidence lies in [25, 95] and its price is at least 10;
    for any hour but the current one the prediction is the one for that
    target hour, and for the current hour it is made one step ahead, not a
    full day. *)
Theorem predictPriceMovement_with_model (Math_sqrt : Q -> Q) (st : State)
    (model : RegressionModel) (marketData : option MarketData)
    (conditions : MarketConditions) (nowHours : Z) (random : nat -> Q)
    (hour : Z) (basePrice : Q) :
  regressionModel st = Some model ->
  (3 <= length (priceHistory st))%nat ->
  (0 <= hour < 24)%Z -> (0 <= nowHours < 24)%Z ->
  let mv := predictPriceMovement Math_sqrt st marketData conditions nowHours
              random hour basePrice in
  mv_method mv = ML (ofModel (type model)) /\
  25 <= mv_confidence mv <= 95 /\
  10 <= mv_predictedPrice mv /\
  (hour <> nowHours ->
   Z.rem (nowHours + hoursAheadOf hour nowHours) 24 = hour /\
   mv_confidence mv
   = confidenceAt (rSquared (fields model)) hour (hoursAheadOf hour nowHours)) /\
  (hour = nowHours ->
   mv_confidence mv
   = confidenceAt (rSquared (fields model)) (Z.rem (hour + 1) 24) 1).
Proof.
  intros M L Hh Hn mv. subst mv.
  rewrite (predictPriceMovement_regression Math_sqrt st model) by assumption.
  cbn [mv_method mv_confidence mv_predictedPrice].
  destruct (hoursAheadOf_spec hour nowHours Hh Hn) as [K [T S]].
  set (k := if (hoursAheadOf hour nowHours =? 0)%Z then 1%Z
            else hoursAheadOf hour nowHours) in *.
  rewrite (predict_fitted_confidence Math_sqrt st model) by assumption.
  destruct (predict_fitted_labels Math_sqrt st model marketData nowHours random
              k M L) as [Em _].
  rewrite Em.
  split; [reflexivity|]. split; [|split; [|split]].
  - pose proof (confidenceAt_upper (rSquared (fields model))
                  (Z.rem (nowHours + k) 24) k) as U.
    assert (F : 25 <= confidenceAt (rSquared (fields model))
                        (Z.rem (nowHours + k) 24) k)
      by (unfold confidenceAt; apply Qmax_ge_l).
    assert (K' : 1 <= inject_Z k)
      by (change 1 with (inject_Z 1); rewrite <- Zle_Qle; lia).
    split; [exact F|].
    apply (Qle_trans _ _ _ U). apply Q.max_lub; lra.
  - apply (predict_fitted_price_floor Math_sqrt st model); assumption.
  - intro Ne. specialize (T Ne).
    assert (Ek : k = hoursAheadOf hour nowHours).
    { unfold k. destruct (Z.eqb_spec (hoursAheadOf hour nowHours) 0) as [Z0|]; [|reflexivity].
      exfalso. unfold hoursAheadOf in Z0. rewrite Z.rem_mod_nonneg in Z0 by lia.
      apply Ne. revert Z0. Z.div_mod_to_equations. lia. }
    rewrite <- Ek. rewrite T. split; reflexivity.
  - intro Eq. rewrite (S Eq). subst hour. reflexivity.
Qed.

Lemma predictPriceMovement_with_model_witness :
  25 <= mv_confidence
          (predictPriceMovement Qsqrt valley (priceOnly 5)
             (marketConditions Qsqrt valley (priceOnly 5) 0.5) 9 drawsHalf 9 5)
     <= 95.
Proof.
  eapply (predictPriceMovement_with_model Qsqrt valley _ (priceOnly 5)
            (marketConditions Qsqrt valley (priceOnly 5) 0.5) 9 drawsHalf 9 5).
  - vm_compute. reflexivity.
  - vm_compute. lia.
  - lia.
  - lia.
Defined.

(** X14. [predictPriceMovement] never reports the fallback of
    [predictPriceWithRegression]: it calls it only under the condition that
    excludes its fallback branch, and otherwise uses its own heuristic. *)
Theorem predictPriceMovement_never_fallback (Math_sqrt : Q -> Q) (st : State)
    (marketData : option MarketData) (conditions : MarketConditions)
    (nowHours : Z) (random : nat -> Q) (hour : Z) (basePrice : Q) :
  mv_method (predictPriceMovement Math_sqrt st marketData conditions nowHours
               random hour basePrice) <> ML fallback /\
  (mv_method (predictPriceMovement Math_sqrt st marketData conditions nowHours
                random hour basePrice) = heuristic <->
   regressionModel st = None \/ (length (priceHistory st) < 3)%nat).
Proof.
  destruct (predict_path st) as [F|model M L].
  - assert (H : mv_method (predictPriceMovement Math_sqrt st marketData
                             conditions nowHours random hour basePrice)
                = heuristic).
    { unfold predictPriceMovement.
      destruct F as [N|S].
      - rewrite N.
        destruct (isPeakHour hour), (isNightHour hour),
          (Qgtb (renewableRatio conditions) 0.5), (gridStress conditions);
          reflexivity.
      - apply Nat.leb_gt in S. rewrite S.
        destruct (regressionModel st);
          destruct (isPeakHour hour), (isNightHour hour),
            (Qgtb (renewableRatio conditions) 0.5), (gridStress conditions);
          reflexivity. }
    rewrite H. split; [discriminate|]. split; [intros _; exact F|reflexivity].
  - rewrite (predictPriceMovement_regression Math_sqrt st model) by assumption.
    cbn [mv_method].
    destruct (predict_fitted_labels Math_sqrt st model marketData nowHours random
                (if (hoursAheadOf hour nowHours =? 0)%Z then 1%Z
                 else hoursAheadOf hour nowHours) M L) as [Em _].
    rewrite Em. split; [discriminate|].
    split; [discriminate|]. intros [N|S]; [congruence|lia].
Qed.

Lemma predictPriceMovement_no_model (Math_sqrt : Q -> Q) (st : State)
    (marketData : option MarketData) (conditions : MarketConditions)
    (nowHours : Z) (random : nat -> Q) (hour : Z) (basePrice : Q) :
  regressionModel st = None \/ (length (priceHistory st) < 3)%nat ->
  predictPriceMovement Math_sqrt st marketData conditions nowHours random hour
    basePrice
  = predictPriceMovement Math_sqrt initialState marketData conditions nowHours
      random hour basePrice.
Proof.
  intro F. unfold predictPriceMovement.
  replace (match regressionModel st with
           | Some _ => (3 <=? length (priceHistory st))%nat
           | None => false
           end) with false; [reflexivity|].
  destruct F as [N|S]; [rewrite N; reflexivity|].
  apply Nat.leb_gt in S. rewrite S. destruct (regressionModel st); reflexivity.
Qed.

Ltac decide_trend :=
  repeat match goal with
         | |- context [Qgtb ?m 1.05] =>
           first [ replace (Qgtb m 1.05) with true
                     by (symmetry; apply Qltb_lt; lra)
                 | replace (Qgtb m 1.05) with false
                     by (symmetry; apply Qltb_ge; lra) ]
         | |- context [Qltb ?m 0.95] =>
           first [ replace (Qltb m 0.95) with true
                     by (symmetry; apply Qltb_lt; lra)
                 | replace (Qltb m 0.95) with false
                     by (symmetry; apply Qltb_ge; lra) ]
         end.

(** X15. Without a model or with fewer than 3 entries, and with random
    draws in [0, 1], the heuristic of [predictPriceMovement] gives a
    confidence in [45, 90] and a model quality of 0; for a peak hour the
    trend is always upward and the price at least 1.09 times the positive
    base price, and for a night hour the trend is always downward and the
    price at most 0.94 times the base price, whatever the renewable and
    grid-stress adjustments. *)
Theorem predictPriceMovement_heuristic (Math_sqrt : Q -> Q) (st : State)
    (marketData : option MarketData) (conditions : MarketConditions)
    (nowHours : Z) (random : nat -> Q) (hour : Z) (basePrice : Q) :
  regressionModel st = None \/ (length (priceHistory st) < 3)%nat ->
  0 <= random 0%nat <= 1 -> 0 <= random 1%nat <= 1 -> 0 < basePrice ->
  let mv := predictPriceMovement Math_sqrt st marketData conditions nowHours
              random hour basePrice in
  mv_method mv = heuristic /\
  modelQuality mv = Some 0 /\
  45 <= mv_confidence mv <= 90 /\
  (isPeakHour hour = true ->
   mv_trend mv = Some upward /\ basePrice * 1.09 <= mv_predictedPrice mv /\
   60 <= mv_confidence mv) /\
  (isPeakHour hour = false -> isNightHour hour = true ->
   mv_trend mv = Some downward /\ mv_predictedPrice mv <= basePrice * 0.94 /\
   55 <= mv_confidence mv).
Proof.
  intros F R0 R1 B mv. subst mv.
  rewrite (predictPriceMovement_no_model Math_sqrt st) by exact F.
  unfold predictPriceMovement. cbn [regressionModel initialState].
  destruct (isPeakHour hour), (isNightHour hour),
    (Qgtb (renewableRatio conditions) 0.5), (gridStress conditions);
    cbn [mv_method modelQuality mv_confidence mv_trend mv_predictedPrice];
    (split; [reflexivity|]); (split; [reflexivity|]); (split; [lra|]);
    (split; [intro P; try discriminate P|intros P N; try discriminate P; try discriminate N]);
    (split; [decide_trend; reflexivity|split; [|lra]]);
    try (apply Qmult_le_l; [exact B|lra]).
Qed.

Lemma predictPriceMovement_heuristic_witness :
  mv_trend (predictPriceMovement Qsqrt initialState None
              (marketConditions Qsqrt initialState None 0.5) 7 drawsHalf 19 45)
  = Some upward.
Proof.
  apply (predictPriceMovement_heuristic Qsqrt initialState None
           (marketConditions Qsqrt initialState None 0.5) 7 drawsHalf 19 45).
  - left. reflexivity.
  - unfold drawsHalf. lra.
  - unfold drawsHalf. lra.
  - lra.
  - reflexivity.
Defined.

(** X16. The adjustments of the heuristic depend on the market data only
    through two tests: the renewable test passes exactly when
    [renewablePercentage] is present and above 50 (the default of 35 for a
    missing or zero value never passes), and the grid stress is high exactly
    when [demand] is present and above 35000.  With neither, the heuristic
    confidence stays within [45, 75]. *)
Theorem marketConditions_adjustments (Math_sqrt : Q -> Q) (st : State)
    (marketData : option MarketData) (draw : Q) (nowHours : Z)
    (random : nat -> Q) (hour : Z) (basePrice : Q) :
  let conditions := marketConditions Math_sqrt st marketData draw in
  let renewable := match marketData with
                   | Some md => md_renewablePercentage md | None => None end in
  let demanded := match marketData with
                  | Some md => md_demand md | None => None end in
  (Qgtb (renewableRatio conditions) 0.5 = true <->
   exists r, renewable = Some r /\ 50 < r) /\
  (gridStress conditions = stressHigh <->
   exists d, demanded = Some d /\ 35000 < d) /\
  (regressionModel st = None \/ (length (priceHistory st) < 3)%nat ->
   0 <= random 1%nat <= 1 ->
   renewable = None -> demanded = None ->
   45 <= mv_confidence (predictPriceMovement Math_sqrt st marketData conditions
                          nowHours random hour basePrice) <= 75).
Proof.
  intros conditions renewable demanded.
  assert (Hr : Qgtb (renewableRatio conditions) 0.5 = true <->
               exists r, renewable = Some r /\ 50 < r).
  { unfold conditions, marketConditions. cbn [renewableRatio]. fold renewable.
    unfold Qgtb. rewrite Qltb_lt. unfold orDefault, truthy.
    assert (D : forall v : Q, v / 100 == v * (1 # 100)) by reflexivity.
    destruct renewable as [v|].
    - destruct (Qeq_bool v 0) eqn:E; cbn [negb]; rewrite D.
      + apply Qeq_bool_iff in E. split.
        * intro H. exfalso. lra.
        * intros [r [Er Hr]]. injection Er as <-. lra.
      + split.
        * intro H. exists v. split; [reflexivity|lra].
        * intros [r [Er Hr]]. injection Er as <-. lra.
    - rewrite D. split.
      + intro H. exfalso. lra.
      + intros [r [Er _]]. discriminate Er. }
  assert (Hg : gridStress conditions = stressHigh <->
               exists d, demanded = Some d /\ 35000 < d).
  { unfold conditions, marketConditions. cbn [gridStress]. fold demanded.
    destruct demanded as [d|].
    - unfold Qgtb. destruct (Qltb 35000 d) eqn:E.
      + apply Qltb_lt in E. split; [intros _; exists d; split; [reflexivity|exact E]|reflexivity].
      + apply Qltb_ge in E. split.
        * destruct (Qltb d 30000); discriminate.
        * intros [d' [Ed Hd]]. injection Ed as <-. lra.
    - split; [discriminate|]. intros [d [Ed _]]. discriminate Ed. }
  split; [exact Hr|]. split; [exact Hg|].
  intros F R1 Nr Nd.
  assert (G : gridStress conditions = stressNormal).
  { unfold conditions, marketConditions. cbn [gridStress]. fold demanded.
    rewrite Nd. reflexivity. }
  assert (Rn : Qgtb (renewableRatio conditions) 0.5 = false).
  { apply not_true_is_false. intro E.
    apply Hr in E. destruct E as [r [Er _]]. congruence. }
  rewrite (predictPriceMovement_no_model Math_sqrt st) by exact F.
  unfold predictPriceMovement. cbn [regressionModel initialState].
  rewrite Rn, G.
  destruct (isPeakHour hour), (isNightHour hour); cbn [mv_confidence]; lra.
Qed.

(** ** Moving average *)

Lemma sum_cons (x : Q) (l : list Q) : sum (x :: l) == x + sum l.
Proof.
  unfold sum.
  change (fold_left Qplus (x :: l) 0)
    with (fold_left (fun acc y => acc + (fun z => z) y) (x :: l) 0).
  rewrite (fold_sum_cons (fun z => z)). reflexivity.
Qed.

(** The averages of the windows of [x :: l] are the one of the first
    window followed by those of [l]. *)
Lemma windows_cons {B : Type} (g : list Q -> B) (x : Q) (l : list Q) (k : nat) :
  map (fun j => g (skipn j (x :: l))) (seq 0 (S k))
  = g (x :: l) :: map (fun j => g (skipn j l)) (seq 0 k).
Proof.
  cbn [seq map skipn]. f_equal.
  rewrite <- seq_shift, map_map. reflexivity.
Qed.

Lemma moving_average_one (data : list Q) :
  Forall2 Qeq
    (map (fun j => sum (firstn 1 (skipn j data)) / inject_Z (Z.of_nat 1))
         (seq 0 (length data)))
    data.
Proof.
  induction data as [|x l IH]; [constructor|].
  cbn [length].
  rewrite (windows_cons (fun d => sum (firstn 1 d) / inject_Z (Z.of_nat 1))).
  constructor; [|exact IH].
  cbn [firstn]. rewrite sum_cons. unfold sum. simpl fold_left.
  change (inject_Z (Z.of_nat 1)) with 1. field.
Qed.

(** X17. [calculateMovingAverage] returns the data unchanged when it is
    shorter than the window; otherwise, for a window of at least 1, it
    returns [length - window + 1] values, one per position of the window;
    with a window of 1 the values are the data themselves. *)
Theorem calculateMovingAverage_spec (data : list Q) (window : nat) :
  ((length data < window)%nat -> calculateMovingAverage data window = data) /\
  ((1 <= window <= length data)%nat ->
   length (calculateMovingAverage data window)
   = (length data - window + 1)%nat) /\
  Forall2 Qeq (calculateMovingAverage data 1) data.
Proof.
  unfold calculateMovingAverage. split; [|split].
  - intro H. apply Nat.ltb_lt in H. rewrite H. reflexivity.
  - intros [H1 H2].
    replace (length data <? window)%nat with false
      by (symmetry; apply Nat.ltb_ge; exact H2).
    rewrite length_map, length_seq. lia.
  - destruct data as [|x l]; [constructor|].
    replace (length (x :: l) <? 1)%nat with false
      by (symmetry; apply Nat.ltb_ge; cbn [length]; lia).
    replace (S (length (x :: l)) - 1)%nat with (length (x :: l)) by lia.
    apply moving_average_one.
Qed.

Lemma calculateMovingAverage_spec_witness :
  (1 <= 3 <= length [40; 42; 41; 45; 44])%nat /\
  length (calculateMovingAverage [40; 42; 41; 45; 44] 3) = 3%nat.
Proof.
  split; [simpl; lia|].
  apply (calculateMovingAverage_spec [40; 42; 41; 45; 44] 3).
  simpl. lia.
Defined.

Example calculateMovingAverage_values :
  map Qred (calculateMovingAverage [40; 42; 41; 45; 44] 3)
  = [41; 128 # 3; 130 # 3].
Proof. vm_compute. reflexivity. Qed.

Lemma marketConditions_adjustments_witness :
  45 <= mv_confidence
          (predictPriceMovement Qsqrt initialState None
             (marketConditions Qsqrt initialState None 0.5) 7 drawsHalf 19 45)
     <= 75.
Proof.
  apply (marketConditions_adjustments Qsqrt initialState None 0.5 7 drawsHalf
           19 45).
  - left. reflexivity.
  - unfold drawsHalf. lra.
  - reflexivity.
  - reflexivity.
Defined.

(** ** Suggestions *)

Lemma insertByConfidence_perm (x : Suggestion) (l : list Suggestion) :
  Permutation (x :: l) (insertByConfidence x l).
Proof.
  induction l as [|y l IH]; [apply Permutation_refl|].
  simpl. destruct (Qgtb (sg_confidence y) (sg_confidence x)).
  - apply (perm_trans (perm_swap y x l)). apply perm_skip. exact IH.
  - apply Permutation_refl.
Qed.

Lemma sortByConfidence_perm (l : list Suggestion) :
  Permutation l (sortByConfidence l).
Proof.
  induction l as [|x l IH]; [apply perm_nil|].
  simpl. apply (perm_trans (perm_skip x IH)). apply insertByConfidence_perm.
Qed.

Lemma insertByConfidence_sorted (x : Suggestion) (l : list Suggestion) :
  Sorted notBelow l -> Sorted notBelow (insertByConfidence x l).
Proof.
  induction l as [|y l IH]; intro H.
  - simpl. constructor; constructor.
  - simpl. destruct (Qgtb (sg_confidence y) (sg_confidence x)) eqn:G.
    + apply Sorted_inv in H. destruct H as [Hl Hy].
      constructor; [apply IH; exact Hl|].
      destruct l as [|z l]; simpl.
      * constructor. unfold notBelow. apply Qltb_lt in G. lra.
      * destruct (Qgtb (sg_confidence z) (sg_confidence x)).
        -- constructor. inversion Hy; assumption.
        -- constructor. unfold notBelow. apply Qltb_lt in G. lra.
    + constructor; [exact H|]. constructor. unfold notBelow.
      apply Qltb_ge in G. exact G.
Qed.

Lemma sortByConfidence_sorted (l : list Suggestion) :
  Sorted notBelow (sortByConfidence l).
Proof.
  induction l as [|x l IH]; [constructor|].
  simpl. apply insertByConfidence_sorted. exact IH.
Qed.

(** Sorting a sorted list changes nothing. *)
Lemma sortByConfidence_fixed (l : list Suggestion) :
  Sorted notBelow l -> sortByConfidence l = l.
Proof.
  induction l as [|x l IH]; intro H; [reflexivity|].
  apply Sorted_inv in H. destruct H as [Hl Hx].
  simpl. rewrite (IH Hl).
  destruct l as [|y l]; [reflexivity|].
  simpl. inversion Hx as [|? ? N]; subst. unfold notBelow in N.
  replace (Qgtb (sg_confidence y) (sg_confidence x)) with false
    by (symmetry; apply Qltb_ge; exact N).
  reflexivity.
Qed.

Lemma notBelow_transitive : Relations_1.Transitive notBelow.
Proof. intros a b c H1 H2. unfold notBelow in *. lra. Qed.

Lemma filter_sorted (f : Suggestion -> bool) (l : list Suggestion) :
  Sorted notBelow l -> Sorted notBelow (filter f l).
Proof.
  intro H. apply Sorted_StronglySorted in H; [|exact notBelow_transitive].
  apply StronglySorted_Sorted.
  induction H as [|x l Hl IH Hx]; [constructor|].
  simpl. destruct (f x); [|exact IH].
  constructor; [exact IH|].
  apply Forall_forall. intros y Hy. apply filter_In in Hy.
  rewrite Forall_forall in Hx. apply Hx. apply Hy.
Qed.

Lemma filter_all {A : Type} (f : A -> bool) (l : list A) :
  Forall (fun x => f x = true) l -> filter f l = l.
Proof.
  induction 1 as [|x l Hx Hl IH]; [reflexivity|].
  simpl. rewrite Hx, IH. reflexivity.
Qed.

Lemma filter_none {A : Type} (f : A -> bool) (l : list A) :
  Forall (fun x => f x = false) l -> filter f l = [].
Proof.
  induction 1 as [|x l Hx Hl IH]; [reflexivity|].
  simpl. rewrite Hx, IH. reflexivity.
Qed.

Lemma filterSuggestions_matches (suggestionType : SuggestionType)
    (prevSuggestions : list Suggestion) :
  Forall (fun s => matchesType suggestionType s = true)
         (filterSuggestions suggestionType prevSuggestions).
Proof.
  unfold filterSuggestions.
  apply (Permutation_Forall (sortByConfidence_perm _)).
  apply Forall_forall. intros s Hs. apply filter_In in Hs. apply Hs.
Qed.

Lemma filterSuggestions_again (t1 t2 : SuggestionType)
    (prevSuggestions : list Suggestion) :
  filterSuggestions t2 (filterSuggestions t1 prevSuggestions)
  = filter (matchesType t2) (filterSuggestions t1 prevSuggestions).
Proof.
  unfold filterSuggestions at 1. apply sortByConfidence_fixed.
  apply filter_sorted. apply sortByConfidence_sorted.
Qed.

(** X18. The list shown after a change of suggestion type holds exactly the
    previous suggestions whose action matches the type (all of them for
    'both'), in order of decreasing confidence; filtering it again by the
    same type changes nothing. *)
Theorem filterSuggestions_spec (suggestionType : SuggestionType)
    (prevSuggestions : list Suggestion) :
  Permutation (filter (matchesType suggestionType) prevSuggestions)
              (filterSuggestions suggestionType prevSuggestions) /\
  Sorted notBelow (filterSuggestions suggestionType prevSuggestions) /\
  Forall (fun s => matchesType suggestionType s = true)
         (filterSuggestions suggestionType prevSuggestions) /\
  Permutation prevSuggestions (filterSuggestions typeBoth prevSuggestions) /\
  filterSuggestions suggestionType
    (filterSuggestions suggestionType prevSuggestions)
  = filterSuggestions suggestionType prevSuggestions.
Proof.
  split; [apply sortByConfidence_perm|].
  split; [apply sortByConfidence_sorted|].
  split; [apply filterSuggestions_matches|].
  split.
  - unfold filterSuggestions.
    rewrite (filter_all (matchesType typeBoth))
      by (apply Forall_forall; intros; reflexivity).
    apply sortByConfidence_perm.
  - rewrite filterSuggestions_again. apply filter_all.
    apply filterSuggestions_matches.
Qed.

(** X19. The suggestion-type effect filters the list that is already
    shown, so a filter never brings back what an earlier one removed:
    after 'buy', switching to 'both' still shows the buy suggestions only,
    and switching to 'sell' shows nothing (and the same with buy and sell
    exchanged). *)
Theorem filterSuggestions_never_restores (prevSuggestions : list Suggestion) :
  filterSuggestions typeBoth (filterSuggestions typeBuy prevSuggestions)
  = filterSuggestions typeBuy prevSuggestions /\
  filterSuggestions typeBoth (filterSuggestions typeSell prevSuggestions)
  = filterSuggestions typeSell prevSuggestions /\
  filterSuggestions typeSell (filterSuggestions typeBuy prevSuggestions) = [] /\
  filterSuggestions typeBuy (filterSuggestions typeSell prevSuggestions) = [].
Proof.
  rewrite !filterSuggestions_again.
  repeat split.
  - apply filter_all. apply Forall_forall. intros; reflexivity.
  - apply filter_all. apply Forall_forall. intros; reflexivity.
  - apply filter_none.
    apply (Forall_impl _ (P := fun s => matchesType typeBuy s = true));
      [|apply filterSuggestions_matches].
    intros s. simpl. destruct (action s); [reflexivity|discriminate].
  - apply filter_none.
    apply (Forall_impl _ (P := fun s => matchesType typeSell s = true));
      [|apply filterSuggestions_matches].
    intros s. simpl. destruct (action s); [discriminate|reflexivity].
Qed.

Lemma sameMode_spec (mode : AnalysisMode) (s : Suggestion) :
  sameMode mode s = true <-> analysisMode s = mode.
Proof.
  unfold sameMode. destruct (analysisMode s), mode; split; intro H;
    try reflexivity; discriminate H.
Qed.

(** X20. What [generateSuggestions] finally shows are the generated
    suggestions of the current analysis mode whose action matches the
    suggestion type, no others and none missing, in order of decreasing
    confidence. *)
Theorem finalSuggestions_spec (mode : AnalysisMode)
    (suggestionType : SuggestionType) (allSuggestions : list Suggestion) :
  (forall s, In s (finalSuggestions mode suggestionType allSuggestions) <->
             In s allSuggestions /\ analysisMode s = mode /\
             matchesType suggestionType s = true) /\
  Sorted notBelow (finalSuggestions mode suggestionType allSuggestions) /\
  length (finalSuggestions mode suggestionType allSuggestions)
  = length (filter (fun s => sameMode mode s && matchesType suggestionType s)
                   allSuggestions).
Proof.
  unfold finalSuggestions. cbv zeta.
  assert (P := sortByConfidence_perm
                 (filter (matchesType suggestionType)
                         (filter (sameMode mode) allSuggestions))).
  split; [|split].
  - intro s. split.
    + intro H. apply (Permutation_in _ (Permutation_sym P)) in H.
      apply filter_In in H. destruct H as [H T].
      apply filter_In in H. destruct H as [H M].
      split; [exact H|]. split; [apply sameMode_spec; exact M|exact T].
    + intros [H [M T]]. apply (Permutation_in _ P).
      apply filter_In. split; [|exact T].
      apply filter_In. split; [exact H|apply sameMode_spec; exact M].
  - apply sortByConfidence_sorted.
  - rewrite <- (Permutation_length P).
    f_equal. clear P.
    induction allSuggestions as [|s l IH]; [reflexivity|].
    simpl. destruct (sameMode mode s); simpl; [|exact IH].
    destruct (matchesType suggestionType s); simpl; [f_equal|]; exact IH.
Qed.

(** ** Prices that are not recorded, points that are not fitted *)

Lemma appendOnPriceChange_invalid_price (marketData : option MarketData)
    (now : Z) (st : State) :
  validPrice marketData = None -> appendOnPriceChange marketData now st = st.
Proof. intro V. unfold appendOnPriceChange. rewrite V. reflexivity. Qed.

Lemma validPrice_none (marketData : option MarketData) :
  (forall p, currentPriceOf marketData = Some p -> p <= 0) ->
  validPrice marketData = None.
Proof.
  intro H. unfold validPrice.
  destruct (currentPriceOf marketData) as [p|]; [|reflexivity].
  specialize (H p eq_refl).
  replace (Qgtb p 0) with false by (symmetry; apply Qltb_ge; exact H).
  rewrite andb_false_r. reflexivity.
Qed.

(** X21. Market data without a current price, or with a price that is zero
    or negative, changes neither the window nor the model, through either
    price effect. *)
Theorem price_effects_ignore_invalid_price (marketData : option MarketData)
    (now nowHours : Z) (st : State) :
  (forall p, currentPriceOf marketData = Some p -> p <= 0) ->
  record marketData now nowHours st = st /\
  appendOnPriceChange marketData now st = st.
Proof.
  intro H. split.
  - apply record_invalid_price. exact H.
  - apply appendOnPriceChange_invalid_price. apply validPrice_none. exact H.
Qed.

Lemma price_effects_ignore_invalid_price_witness :
  record (priceOnly (-5)) 1000 14 ramp = ramp /\
  appendOnPriceChange (priceOnly (-5)) 1000 ramp = ramp.
Proof.
  apply (price_effects_ignore_invalid_price (priceOnly (-5)) 1000 14 ramp).
  intros p E. injection E as <-. lra.
Defined.

Lemma appendPoints_model (points : list PriceEntry) :
  forall st : State,
    regressionModel (fold_left (fun s point => appendPoint point s) points st)
    = regressionModel st.
Proof.
  induction points as [|point rest IH]; intro st; [reflexivity|].
  simpl. rewrite IH. reflexivity.
Qed.

Lemma appendPoints_bounded (points : list PriceEntry) :
  forall st : State,
    (length (priceHistory st) <= 50)%nat ->
    (length (priceHistory
               (fold_left (fun s point => appendPoint point s) points st))
     <= 50)%nat.
Proof.
  induction points as [|point rest IH]; intros st H; [exact H|].
  simpl. apply IH. cbn [priceHistory appendPoint].
  rewrite slice_last_length. lia.
Qed.

(** X22. The simulated price movement and the manual data point append to
    the window, within the bound of 50, but never fit a model: however many
    points they add, the model stays what it was, and starting from the
    initial state every prediction is still the fallback one with
    confidence 30. *)
Theorem appendPoint_never_fits (Math_sqrt : Q -> Q)
    (points : list PriceEntry) (st : State)
    (marketData : option MarketData) (nowHours : Z) (random : nat -> Q)
    (hoursAhead : Z) :
  let appended := fold_left (fun s point => appendPoint point s) points in
  regressionModel (appended st) = regressionModel st /\
  ((length (priceHistory st) <= 50)%nat ->
   (length (priceHistory (appended st)) <= 50)%nat) /\
  predictPriceWithRegression Math_sqrt (appended initialState) marketData
    nowHours random hoursAhead
  = fallbackPrediction marketData.
Proof.
  intro appended. unfold appended.
  split; [apply appendPoints_model|].
  split; [apply appendPoints_bounded|].
  apply predict_fallback. left. rewrite appendPoints_model. reflexivity.
Qed.

Lemma appendPoint_never_fits_witness :
  (length (priceHistory (fold_left (fun s point => appendPoint point s)
                           (lineWindow 2 40 5) valley)) <= 50)%nat.
Proof.
  apply (appendPoint_never_fits Qsqrt (lineWindow 2 40 5) valley None 9
           drawsHalf 1).
  vm_compute. lia.
Defined.

(** ** Confidence under rounding *)

Lemma exact_is_rounding : IsRounding exact.
Proof.
  constructor; unfold exact.
  - intros x y H. exact H.
  - intros x y H. exact H.
  - intros x _. apply Qabs_Qle_condition. split; lra.
  - intros z _. reflexivity.
Qed.

(** Without rounding the rounded confidence is the confidence of
    [predictPriceWithRegression]. *)
Lemma predictConfidence_exact (Math_sqrt : Q -> Q) (st : State)
    (marketData : option MarketData) (nowHours : Z) (random : nat -> Q)
    (hoursAhead : Z) :
  predictConfidence exact st nowHours hoursAhead
  = confidence (predictPriceWithRegression Math_sqrt st marketData nowHours
                  random hoursAhead).
Proof.
  unfold predictConfidence, predictPriceWithRegression.
  destruct (regressionModel st) as [model|]; [|reflexivity].
  destruct (length (priceHistory st) <? 3)%nat; [reflexivity|].
  unfold confidenceRounded, exact.
  destruct (isPeakHour _); [|destruct (isNightHour _)]; reflexivity.
Qed.

Section RoundedConfidence.

Variable fl : Q -> Q.
Hypothesis rounding : IsRounding fl.

Lemma fl_bounds (x : Q) : 0 <= x <= 100 -> x - 1 <= fl x <= x + 1.
Proof.
  intro H. pose proof (fl_near fl rounding x H) as N.
  apply Qabs_Qle_condition in N. lra.
Qed.

Lemma fl_steps (hoursAhead : Z) :
  (0 <= hoursAhead <= 1000000000000001)%Z ->
  fl (inject_Z hoursAhead * 5) == inject_Z hoursAhead * 5.
Proof.
  intro H.
  assert (E : inject_Z hoursAhead * 5 == inject_Z (hoursAhead * 5))
    by (rewrite inject_Z_mult; reflexivity).
  rewrite (fl_wd fl rounding _ _ E), E.
  apply (fl_int fl rounding). lia.
Qed.

Lemma confidence0_bounds (r2 : Q) :
  0 <= r2 -> 0 <= Qmin 95 (fl (r2 * 100)) <= 95.
Proof.
  intro H. split; [|apply Q.le_min_l].
  apply Q.min_glb; [lra|].
  assert (Z0 : fl 0 == 0) by (apply (fl_int fl rounding 0); simpl; lia).
  rewrite <- Z0. apply (fl_mono fl rounding). lra.
Qed.

Lemma confidenceRounded_floor (r2 : Q) (currentHour hoursAhead : Z) :
  25 <= confidenceRounded fl r2 currentHour hoursAhead.
Proof. unfold confidenceRounded. apply Q.le_max_l. Qed.

(** One more step ahead does not raise the rounded confidence, unless the
    target hour gains the full peak bonus over an hour without bonus. *)
Lemma confidenceRounded_step (r2 : Q) (h h' hoursAhead : Z) :
  0 <= r2 ->
  (0 <= hoursAhead <= 1000000000000000)%Z ->
  negb (isPeakHour h) && negb (isNightHour h) && isPeakHour h' = false ->
  confidenceRounded fl r2 h' (hoursAhead + 1)
  <= confidenceRounded fl r2 h hoursAhead.
Proof.
  intros Hr Hk Hstep. unfold confidenceRounded.
  pose proof (confidence0_bounds r2 Hr) as C0.
  set (c0 := Qmin 95 (fl (r2 * 100))) in *.
  assert (B5 := fl_bounds (c0 + 5) ltac:(lra)).
  assert (B3 := fl_bounds (c0 + 3) ltac:(lra)).
  assert (D : fl (inject_Z hoursAhead * 5) == inject_Z hoursAhead * 5)
    by (apply fl_steps; lia).
  assert (D' : fl (inject_Z (hoursAhead + 1) * 5) == inject_Z hoursAhead * 5 + 5).
  { assert (E := fl_steps (hoursAhead + 1) ltac:(lia)).
    rewrite E, inject_Z_plus. ring. }
  apply Qmax_mono_r. apply (fl_mono fl rounding).
  rewrite D, D'.
  destruct (isPeakHour h'); [|destruct (isNightHour h')];
    (destruct (isPeakHour h); [|destruct (isNightHour h)]);
    try discriminate Hstep; lra.
Qed.

Lemma predictConfidence_step (st : State) (nowHours hoursAhead : Z) :
  (forall model, regressionModel st = Some model ->
                 0 <= rSquared (fields model)) ->
  (0 <= hoursAhead <= 1000000000000000)%Z ->
  entersPeak nowHours hoursAhead = false ->
  predictConfidence fl st nowHours (hoursAhead + 1)
  <= predictConfidence fl st nowHours hoursAhead.
Proof.
  intros Hr Hk Hstep. unfold predictConfidence.
  destruct (regressionModel st) as [model|]; [|lra].
  destruct (length (priceHistory st) <? 3)%nat; [lra|].
  apply confidenceRounded_step; [apply Hr; reflexivity|exact Hk|exact Hstep].
Qed.

Lemma predictConfidence_floor (st : State) (nowHours hoursAhead : Z) :
  25 <= predictConfidence fl st nowHours hoursAhead.
Proof.
  unfold predictConfidence.
  destruct (regressionModel st) as [model|]; [|lra].
  destruct (length (priceHistory st) <? 3)%nat; [lra|].
  apply confidenceRounded_floor.
Qed.

End RoundedConfidence.




(** The common value of the two confidences in exact arithmetic. *)
Example swing_confidences_exact :
  predictConfidence exact (windowOf [40; 48; 41; 49]) 6 1 == 335 # 13 /\
  predictConfidence exact (windowOf [40; 48; 41; 49]) 6 2 == 335 # 13.
Proof. split; vm_compute; reflexivity. Qed.

Module DoubleExamples.

Import PrimFloat.
Local Open Scope float_scope.
#[local] Set Warnings "-inexact-float".

(** The two values of that window in doubles. *)
Example swing_confidences :
  Double.predictConfidence Double.swing 6 1 = 25.76923076923077 /\
  Double.predictConfidence Double.swing 6 2 = 25.769230769230774.
Proof. split; vm_compute; reflexivity. Qed.

(** The same decimal price six times leaves a variance of 3e-28 in doubles,
    which the parabola explains and the line does not: the fit is
    polynomial.  A whole price leaves none, and the fit is linear. *)
Example flat_windows_in_doubles :
  Double.fitModel Double.flatDecimal = (polynomial, 1) /\
  Double.fitModel Double.flatWhole = (linear, 0).
Proof. split; vm_compute; reflexivity. Qed.

(** A whole line in doubles: the fit is linear with R-squared exactly 1. *)
Example whole_line_in_doubles :
  Double.fitModel [40; 42; 44; 46; 48; 50; 52] = (linear, 1).
Proof. vm_compute. reflexivity. Qed.

End DoubleExamples.
